(** * Voice translator service: a shallow embedding of the HTTP handlers

    The repository is a FastAPI application (main.py, notmain.py) that chains
    three cloud providers: transcription (submit a job, poll its status),
    translation and speech synthesis, plus a realtime-token endpoint.

    The handlers are embedded as programs of a small state-and-exception
    monad.  The state is the scratch filesystem together with the
    chronological trace of observable effects (provider requests, sleeps,
    file operations); the providers are an oracle that answers the n-th
    outgoing request.  Output written with [print] is not modelled. *)

From Stdlib Require Import ZArith Ascii String List Lia.
From Stdlib.Strings Require Import Byte.
From stdpp Require Import base strings gmap list pretty.

Local Open Scope string_scope.
Local Open Scope Z_scope.
Local Open Scope list_scope.

Set Warnings "-register-all".

(** ** Python strings *)

Module PyStr.

(** [s.startswith(pre)] *)
Definition startswith (s pre : string) : bool := String.prefix pre s.

Definition lower_ascii (c : ascii) : ascii :=
  let n := nat_of_ascii c in
  if ((65 <=? n) && (n <=? 90))%nat then ascii_of_nat (n + 32) else c.

(** [s.lower()], on the ASCII letters. *)
Fixpoint lower (s : string) : string :=
  match s with
  | EmptyString => EmptyString
  | String c s' => String (lower_ascii c) (lower s')
  end.

(** [s.rfind(c)] for a one-character needle: the highest index, or -1. *)
Fixpoint rfind_from (c : ascii) (s : string) (i : Z) (best : Z) : Z :=
  match s with
  | EmptyString => best
  | String d s' => rfind_from c s' (i + 1) (if Ascii.eqb c d then i else best)
  end.

Definition rfind (c : ascii) (s : string) : Z := rfind_from c s 0 (-1).

(** [s[i:j]] for [0 <= i]. *)
Definition slice (s : string) (i j : Z) : string :=
  substring (Z.to_nat i) (Z.to_nat (j - i)) s.

(** [s[:j]] and [s[i:]] for non-negative bounds. *)
Definition take (j : Z) (s : string) : string := substring 0 (Z.to_nat j) s.
Definition drop (i : Z) (s : string) : string :=
  substring (Z.to_nat i) (String.length s - Z.to_nat i) s.

Fixpoint existsb (f : ascii → bool) (s : string) : bool :=
  match s with
  | EmptyString => false
  | String c s' => f c || existsb f s'
  end.

(** [needle in s] on strings: substring test. *)
Fixpoint contains (s needle : string) : bool :=
  String.prefix needle s ||
  match s with
  | EmptyString => false
  | String _ s' => contains s' needle
  end.

(** [x or default] on strings: the empty string is falsy. *)
Definition or_else (x default : string) : string :=
  match x with EmptyString => default | _ => x end.

(** [os.path.splitext] on POSIX ([sep = "/"], no [altsep]): the extension
    starts at the last dot of the last path component, unless only dots
    precede it in that component. *)
Definition splitext (p : string) : string * string :=
  let sepIndex := rfind "/" p in
  let dotIndex := rfind "." p in
  if (sepIndex <? dotIndex)
     && existsb (λ c, negb (Ascii.eqb c ".")) (slice p (sepIndex + 1) dotIndex)
  then (take dotIndex p, drop dotIndex p)
  else (p, "").

(** [os.path.split] on POSIX for a path without trailing or doubled
    slashes: directory part and last component. *)
Definition split (p : string) : string * string :=
  let i := rfind "/" p + 1 in
  let head := take i p in
  let tail := drop i p in
  (if String.eqb head "/" then head else take (i - 1) head, tail).

(** [os.path.basename] *)
Definition basename (p : string) : string := drop (rfind "/" p + 1) p.

(** [os.path.join(a, b)] for a relative [b]. *)
Definition join (a b : string) : string :=
  if String.eqb a "" then b
  else if String.eqb (drop (Z.of_nat (String.length a) - 1) a) "/" then a +:+ b
  else a +:+ "/" +:+ b.

(** [os.path.abspath] relative to the working directory [cwd]; the paths
    the handlers build have no [.] or [..] components to normalise. *)
Definition abspath (cwd p : string) : string :=
  if startswith p "/" then p else join cwd p.

(** [fnmatch.fnmatchcase] for patterns made of literal characters, [*]
    and [?]. *)
Fixpoint fnmatch (pat : string) : string → bool :=
  match pat with
  | EmptyString => λ s, String.eqb s ""
  | String "*" pat' =>
      fix star (s : string) : bool :=
        fnmatch pat' s ||
        match s with
        | EmptyString => false
        | String _ s' => star s'
        end
  | String "?" pat' => λ s,
      match s with
      | EmptyString => false
      | String _ s' => fnmatch pat' s'
      end
  | String c pat' => λ s,
      match s with
      | EmptyString => false
      | String d s' => Ascii.eqb c d && fnmatch pat' s'
      end
  end.

End PyStr.

(** ** Python values exchanged with the providers *)

(** A parsed JSON document, as [response.json()] returns it: [None], [bool],
    [int], [str], [list], and [dict] with its items (keys distinct).
    Floating-point numbers are left out. *)
Inductive json :=
| JNull
| JBool (b : bool)
| JInt (n : Z)
| JStr (s : string)
| JArr (items : list json)
| JObj (fields : list (string * json)).

Definition bytes := list byte.

(** [repr(v)].  A [str] is rendered between single quotes, which is Python's
    rendering for text without quote, backslash or control characters. *)
Fixpoint py_repr (v : json) : string :=
  match v with
  | JNull => "None"
  | JBool true => "True"
  | JBool false => "False"
  | JInt n => pretty n
  | JStr s => "'" +:+ s +:+ "'"
  | JArr items => "[" +:+ String.concat ", " (map py_repr items) +:+ "]"
  | JObj fields =>
      "{" +:+ String.concat ", "
                (map (λ kv, "'" +:+ fst kv +:+ "': " +:+ py_repr (snd kv)) fields)
          +:+ "}"
  end.

(** [str(v)], also what an f-string interpolates. *)
Definition py_str (v : json) : string :=
  match v with
  | JStr s => s
  | _ => py_repr v
  end.

(** [str(x)] for a module-level setting read with [os.getenv]. *)
Definition str_opt (x : option string) : string := default "None" x.

(** Truthiness of such a setting: [None] and [""] are falsy. *)
Definition truthy (x : option string) : bool :=
  match x with
  | Some s => negb (String.eqb s "")
  | None => false
  end.

(** [v == "literal"] *)
Definition eq_str (v : json) (lit : string) : bool :=
  match v with
  | JStr s => String.eqb s lit
  | _ => false
  end.

Fixpoint assoc (k : string) (fields : list (string * json)) : option json :=
  match fields with
  | [] => None
  | (k', v) :: rest => if String.eqb k k' then Some v else assoc k rest
  end.

(** The name Python prints for the type of a value. *)
Definition type_name (v : json) : string :=
  match v with
  | JNull => "NoneType"
  | JBool _ => "bool"
  | JInt _ => "int"
  | JStr _ => "str"
  | JArr _ => "list"
  | JObj _ => "dict"
  end.

(** ** Exceptions *)

Inductive exn :=
| HTTPException (status_code : Z) (detail : string)  (* fastapi.HTTPException *)
| HTTPError (msg : string)        (* requests: raise_for_status *)
| ConnectionError (msg : string)  (* requests: the transport failed *)
| JSONDecodeError (msg : string)  (* requests: the body is not JSON *)
| KeyError (key : json)
| IndexError (msg : string)
| TypeError (msg : string)
| AttributeError (msg : string)
| FileNotFoundError (path : string)
| FileExistsError (msg : string)
| RuntimeError (msg : string)
| PyException (msg : string).     (* a plain Exception(msg) *)

(** [str(e)].  [HTTPException] has Starlette's [__str__], which prints
    the status code, a colon and the detail; [KeyError] prints the repr of
    the key; the others print their message. *)
Definition str_exn (e : exn) : string :=
  match e with
  | HTTPException status_code detail => pretty status_code +:+ ": " +:+ detail
  | KeyError key => py_repr key
  | FileNotFoundError path =>
      "[Errno 2] No such file or directory: '" +:+ path +:+ "'"
  | HTTPError msg | ConnectionError msg | JSONDecodeError msg
  | IndexError msg | TypeError msg | AttributeError msg
  | FileExistsError msg | RuntimeError msg | PyException msg => msg
  end.

(** [isinstance(e, requests.exceptions.RequestException)] *)
Definition is_RequestException (e : exn) : bool :=
  match e with
  | HTTPError _ | ConnectionError _ | JSONDecodeError _ => true
  | _ => false
  end.

(** [isinstance(e, ValueError)]: the JSON decoding error of requests derives
    from [json.JSONDecodeError], a [ValueError]. *)
Definition is_ValueError (e : exn) : bool :=
  match e with
  | JSONDecodeError _ => true
  | _ => false
  end.

(** ** Results, and the Python operations that can raise *)

Inductive result (A : Type) :=
| Ok (a : A)
| Raise (e : exn).
Arguments Ok {A} a.
Arguments Raise {A} e.

(** [v[k]] for a [str] key. *)
Definition getitem_str (v : json) (k : string) : result json :=
  match v with
  | JObj fields =>
      match assoc k fields with
      | Some x => Ok x
      | None => Raise (KeyError (JStr k))
      end
  | JArr _ => Raise (TypeError "list indices must be integers or slices, not str")
  | JStr _ => Raise (TypeError "string indices must be integers, not 'str'")
  | _ => Raise (TypeError ("'" +:+ type_name v +:+ "' object is not subscriptable"))
  end.

(** [v[i]] for a non-negative [int] index. *)
Definition getitem_int (v : json) (i : nat) : result json :=
  match v with
  | JArr items =>
      match items !! i with
      | Some x => Ok x
      | None => Raise (IndexError "list index out of range")
      end
  | JStr s =>
      match String.get i s with
      | Some c => Ok (JStr (String c ""))
      | None => Raise (IndexError "string index out of range")
      end
  | JObj _ => Raise (KeyError (JInt (Z.of_nat i)))
  | _ => Raise (TypeError ("'" +:+ type_name v +:+ "' object is not subscriptable"))
  end.

(** [v.get(k, d)] *)
Definition dict_get (v : json) (k : string) (d : json) : result json :=
  match v with
  | JObj fields => Ok (default d (assoc k fields))
  | _ => Raise (AttributeError
                  ("'" +:+ type_name v +:+ "' object has no attribute 'get'"))
  end.

(** [k in v] for a [str] [k]: key of a dict, element of a list, substring of a
    string; the other values are not containers. *)
Definition contains_str (v : json) (k : string) : result bool :=
  match v with
  | JObj fields => Ok (bool_decide (is_Some (assoc k fields)))
  | JArr items => Ok (List.existsb (λ x, eq_str x k) items)
  | JStr s => Ok (PyStr.contains s k)
  | _ => Raise (TypeError
                  ("argument of type '" +:+ type_name v +:+ "' is not iterable"))
  end.

(** [s[:n]] on a setting that may be [None]. *)
Definition slice_prefix (x : option string) (n : Z) : result string :=
  match x with
  | Some s => Ok (PyStr.take n s)
  | None => Raise (TypeError "'NoneType' object is not subscriptable")
  end.

(** ** Requests, responses and the provider oracle *)

Inductive http_method := GET | POST.

Inductive payload :=
| NoBody
| JsonBody (j : json)                         (* json=... *)
| FilesBody (field : string) (data : bytes)   (* files={field: f} *)
| DataBody (data : string).                   (* data=... *)

Record request := Request {
  req_method : http_method;
  req_url : string;
  req_headers : list (string * option string);
  req_params : list (string * json);
  req_body : payload
}.

(** What the handlers read of a [requests.Response]; [json_body] is what
    [response.json()] parses, [None] when the body is not JSON. *)
Record response := Response {
  status_code : Z;
  reason : string;
  resp_url : string;
  resp_text : string;   (* response.text *)
  content : bytes;
  json_body : option json
}.

Inductive call_result :=
| Responded (r : response)
| Failed (msg : string).

(** The providers: the answer to the request sent after [n] earlier ones. *)
Definition provider := nat → request → call_result.

(** The settings read from the environment when the module is loaded. *)
Record config := Config {
  ASSEMBLYAI_API_KEY : option string;
  GOOGLE_API_KEY : option string;
  AZURE_API_KEY : option string;
  AZURE_REGION : option string
}.

(** What a handler returns: a dict, or a [FileResponse]. *)
Inductive retval :=
| RJson (j : json)
| RFile (path media_type filename : string).

(** ** The world and the monad *)

Inductive event :=
| EvRequest (r : request)
| EvSleep (seconds : Z)
| EvWrite (path : string) (data : bytes)
| EvRemove (path : string).

(** Files of the scratch filesystem by absolute path, and the effects so far
    in chronological order. *)
Record world := World {
  fs : gmap string bytes;
  trace : list event
}.

Definition M (A : Type) : Type := world → result A * world.

#[global] Instance M_ret : MRet M := λ A a w, (Ok a, w).

#[global] Instance M_bind : MBind M := λ A B f m w,
  match m w with
  | (Ok a, w') => f a w'
  | (Raise e, w') => (Raise e, w')
  end.

Definition raise {A} (e : exn) : M A := λ w, (Raise e, w).

Definition lift {A} (r : result A) : M A := λ w, (r, w).

Definition emit (ev : event) (w : world) : world :=
  {| fs := fs w; trace := trace w ++ [ev] |}.

(** [try: m  except C1 as e: h1 e  except C2 as e: h2 e ...]: the first
    clause whose class has the exception as an instance handles it; what a
    handler raises is not caught by the clauses after it. *)
Fixpoint dispatch {A} (clauses : list ((exn → bool) * (exn → M A))) (e : exn) : M A :=
  match clauses with
  | [] => raise e
  | (catches, h) :: rest => if catches e then h e else dispatch rest e
  end.

Definition try_except {A} (m : M A) (clauses : list ((exn → bool) * (exn → M A))) : M A :=
  λ w,
    match m w with
    | (Ok a, w') => (Ok a, w')
    | (Raise e, w') => dispatch clauses e w'
    end.

(** [except Exception]: every exception of the model derives from it. *)
Definition any_Exception (e : exn) : bool := true.

(** [try: m  finally: f]: [f] runs on every exit of [m]; the outcome is the
    one of [m] unless [f] raises. *)
Definition try_finally {A} (m : M A) (f : M unit) : M A :=
  λ w,
    match m w with
    | (r, w') =>
        match f w' with
        | (Ok _, w'') => (r, w'')
        | (Raise e, w'') => (Raise e, w'')
        end
    end.

(** The provider requests among the effects. *)
Definition sent (tr : list event) : list request :=
  omap (λ ev, match ev with EvRequest r => Some r | _ => None end) tr.

(** [time.sleep(seconds)] *)
Definition time_sleep (seconds : Z) : M unit :=
  λ w, (Ok (), emit (EvSleep seconds) w).

(** [response.raise_for_status()] *)
Definition raise_for_status (r : response) : M unit :=
  if (400 <=? status_code r) && (status_code r <? 500) then
    raise (HTTPError (pretty (status_code r) +:+ " Client Error: " +:+ reason r
                        +:+ " for url: " +:+ resp_url r))
  else if (500 <=? status_code r) && (status_code r <? 600) then
    raise (HTTPError (pretty (status_code r) +:+ " Server Error: " +:+ reason r
                        +:+ " for url: " +:+ resp_url r))
  else mret ().

(** [response.json()] *)
Definition response_json (r : response) : M json :=
  match json_body r with
  | Some j => mret j
  | None => raise (JSONDecodeError "Expecting value: line 1 column 1 (char 0)")
  end.

(** ** The service *)

(** [TTS_VOICES]: language code to Azure voice name. *)
Definition TTS_VOICES : gmap string string :=
  list_to_map
    [("en", "en-US-JennyNeural");
     ("es", "es-ES-ElviraNeural");
     ("fr", "fr-FR-DeniseNeural");
     ("de", "de-DE-KatjaNeural");
     ("fa", "fa-IR-FaridNeural")].

(** An uploaded file as the framework hands it over; the part may come
    without a content type. *)
Record UploadFile := {
  content_type : option string;
  filename : string;
  data : bytes
}.

Definition nl : string := String (ascii_of_nat 10) "".

Section Handlers.

Variable cfg : config.
Variable cwd : string.
Variable net : provider.

(** *** Effects *)

(** [requests.get] and [requests.post]: the request is recorded and the
    oracle answers it, or the transport fails. *)
Definition requests_send (r : request) : M response :=
  λ w,
    match net (length (sent (trace w))) r with
    | Responded resp => (Ok resp, emit (EvRequest r) w)
    | Failed msg => (Raise (ConnectionError msg), emit (EvRequest r) w)
    end.

(** [with open(path, "wb") as f: f.write(data)] *)
Definition open_write (path : string) (d : bytes) : M unit :=
  λ w,
    (Ok (), {| fs := <[PyStr.abspath cwd path := d]> (fs w);
               trace := trace w ++ [EvWrite path d] |}).

(** The bytes read from [open(path, "rb")]. *)
Definition open_read (path : string) : M bytes :=
  λ w,
    match fs w !! PyStr.abspath cwd path with
    | Some d => (Ok d, w)
    | None => (Raise (FileNotFoundError path), w)
    end.

(** [os.path.exists(path)] *)
Definition os_path_exists (path : string) : M bool :=
  λ w, (Ok (bool_decide (is_Some (fs w !! PyStr.abspath cwd path))), w).

(** [os.remove(path)] *)
Definition os_remove (path : string) : M unit :=
  λ w,
    match fs w !! PyStr.abspath cwd path with
    | Some _ =>
        (Ok (), {| fs := delete (PyStr.abspath cwd path) (fs w);
                   trace := trace w ++ [EvRemove path] |})
    | None => (Raise (FileNotFoundError path), w)
    end.

(** [tempfile._mkstemp_inner]: the first candidate name that is free in
    the absolute directory is created empty and its absolute path
    returned; [names] are the candidates the name generator yields. *)
Fixpoint mkstemp_inner (dir pre suf : string) (names : list string) : M string :=
  match names with
  | [] => raise (FileExistsError "[Errno 17] No usable temporary file name found")
  | name :: rest =>
      let file := PyStr.join (PyStr.abspath cwd dir) (pre +:+ name +:+ suf) in
      λ w,
        match fs w !! file with
        | Some _ => mkstemp_inner dir pre suf rest w
        | None =>
            (Ok file, {| fs := <[file := []]> (fs w);
                         trace := trace w ++ [EvWrite file []] |})
        end
  end.

(** [tempfile.NamedTemporaryFile(suffix=suf, dir=dir, delete=False)]: the
    prefix is the default ["tmp"]; the value is the file's [name].  Leaving
    the [with] block closes the file and keeps it. *)
Definition NamedTemporaryFile (suf dir : string) (names : list string) : M string :=
  mkstemp_inner dir "tmp" suf names.

(** [os.listdir(dir)]: the names of the files directly in [dir]. *)
Definition os_listdir (dir : string) : M (list string) :=
  λ w,
    let d := PyStr.abspath cwd dir +:+ "/" in
    (Ok (omap (λ p : string,
                 if PyStr.startswith p d then
                   let name := PyStr.drop (Z.of_nat (String.length d)) p in
                   if PyStr.contains name "/" then None else Some name
                 else None)
              (map fst (map_to_list (fs w)))), w).

(** [glob.glob(pattern)] for a pattern whose directory part has no
    wildcard: the names of the directory that match the last component,
    hidden names left out unless the pattern asks for them, joined to the
    directory. *)
Definition glob_glob (pattern : string) : M (list string) :=
  let dirname := fst (PyStr.split pattern) in
  let basename := snd (PyStr.split pattern) in
  names ← os_listdir dirname;
  mret (map (PyStr.join dirname)
            (List.filter
               (λ name, PyStr.fnmatch basename name
                        && (negb (PyStr.startswith name ".")
                            || PyStr.startswith basename "."))
               names)).

(** *** POST /transcribe *)

Definition upload_request (headers : list (string * option string))
    (f : bytes) : request :=
  {| req_method := POST;
     req_url := "https://api.assemblyai.com/v2/upload";
     req_headers := headers;
     req_params := [];
     req_body := FilesBody "file" f |}.

Definition submit_request (headers : list (string * option string))
    (audio_url : json) : request :=
  {| req_method := POST;
     req_url := "https://api.assemblyai.com/v2/transcript";
     req_headers := headers;
     req_params := [];
     req_body := JsonBody (JObj [("audio_url", audio_url);
                                 ("language_detection", JBool true)]) |}.

Definition status_request (headers : list (string * option string))
    (transcript_id : json) : request :=
  {| req_method := GET;
     req_url := "https://api.assemblyai.com/v2/transcript/" +:+ py_str transcript_id;
     req_headers := headers;
     req_params := [];
     req_body := NoBody |}.

(** The polling loop [for _ in range(attempts): ...] followed by the
    [raise] that is reached when the loop runs out. *)
Fixpoint poll (attempts : nat) (headers : list (string * option string))
    (transcript_id : json) : M retval :=
  match attempts with
  | O => raise (HTTPException 500 "Transcription timeout")
  | S rest =>
      result ← requests_send (status_request headers transcript_id);
      raise_for_status result;;
      j ← response_json result;
      status ← lift (getitem_str j "status");
      if eq_str status "completed" then
        j ← response_json result;
        text ← lift (getitem_str j "text");
        j ← response_json result;
        language_code ← lift (dict_get j "language_code" (JStr "unknown"));
        mret (RJson (JObj [("text", text); ("language_detected", language_code)]))
      else if eq_str status "error" then
        j ← response_json result;
        error ← lift (getitem_str j "error");
        raise (HTTPException 500 ("AssemblyAI error: " +:+ py_str error))
      else
        time_sleep 3;;
        poll rest headers transcript_id
  end.

Definition input_path_of (audio : UploadFile) (unique_id : string) : string :=
  let file_extension :=
    PyStr.or_else (PyStr.lower (snd (PyStr.splitext (filename audio)))) ".mp3" in
  "temp_audio/input_" +:+ unique_id +:+ file_extension.

(** The statements of the [try] block of the handler. *)
Definition transcribe_job (audio : UploadFile) (input_path : string) : M retval :=
  open_write input_path (data audio);;
  let headers := [("authorization", ASSEMBLYAI_API_KEY cfg)] in
  _ ← lift (slice_prefix (ASSEMBLYAI_API_KEY cfg) 5);
  f ← open_read input_path;
  response ← requests_send (upload_request headers f);
  raise_for_status response;;
  j ← response_json response;
  audio_url ← lift (getitem_str j "upload_url");
  transcribe_response ← requests_send (submit_request headers audio_url);
  raise_for_status transcribe_response;;
  j ← response_json transcribe_response;
  transcript_id ← lift (getitem_str j "id");
  poll 30 headers transcript_id.

(** The [finally] block: [if os.path.exists(path): os.remove(path)]. *)
Definition remove_if_exists (path : string) : M unit :=
  present ← os_path_exists path;
  if present : bool then os_remove path else mret ().

(** [unique_id] is the text of the UUID drawn by [uuid.uuid4()]. *)
Definition transcribe_audio (audio : UploadFile) (unique_id : string) : M retval :=
  ct ← match content_type audio with
       | Some ct => mret ct
       | None => raise (AttributeError
                          "'NoneType' object has no attribute 'startswith'")
       end;
  if negb (PyStr.startswith ct "audio/") then
    raise (HTTPException 400 "Invalid audio file")
  else
    let input_path := input_path_of audio unique_id in
    try_finally
      (try_except
         (transcribe_job audio input_path)
         [(any_Exception, λ e, raise (HTTPException 500 (str_exn e)))])
      (remove_if_exists input_path).

(** *** POST /translate *)

Definition translate_request (text source_language target_language : string)
    : request :=
  {| req_method := POST;
     req_url := "https://translation.googleapis.com/language/translate/v2?key="
                +:+ str_opt (GOOGLE_API_KEY cfg);
     req_headers := [];
     req_params := [];
     req_body := JsonBody (JObj [("q", JStr text);
                                 ("source", JStr source_language);
                                 ("target", JStr target_language);
                                 ("format", JStr "text")]) |}.

Definition translate_text (text source_language target_language : string)
    : M retval :=
  try_except
    (response ← requests_send (translate_request text source_language target_language);
     raise_for_status response;;
     j ← response_json response;
     d ← lift (getitem_str j "data");
     ts ← lift (getitem_str d "translations");
     t ← lift (getitem_int ts 0);
     translated_text ← lift (getitem_str t "translatedText");
     mret (RJson (JObj [("translated_text", translated_text)])))
    [(any_Exception, λ e, raise (HTTPException 500 (str_exn e)))].

(** *** POST /tts *)

(** [TTS_VOICES.get(language, "fa-IR-FaridNeural")] *)
Definition voice_of (language : string) : string :=
  default "fa-IR-FaridNeural" (TTS_VOICES !! language).

(** [language if language in TTS_VOICES else "fa-IR"] *)
Definition lang_code_of (language : string) : string :=
  if bool_decide (is_Some (TTS_VOICES !! language)) then language else "fa-IR".

Definition indent12 : string := "            ".

Definition ssml_of (lang_code voice text : string) : string :=
  nl +:+ indent12 +:+ "<speak version='1.0' xml:lang='" +:+ lang_code +:+ "'>"
  +:+ nl +:+ indent12 +:+ "    <voice name='" +:+ voice +:+ "'>" +:+ text +:+ "</voice>"
  +:+ nl +:+ indent12 +:+ "</speak>"
  +:+ nl +:+ indent12.

Definition tts_request (ssml : string) : request :=
  {| req_method := POST;
     req_url := "https://" +:+ str_opt (AZURE_REGION cfg)
                +:+ ".tts.speech.microsoft.com/cognitiveservices/v1";
     req_headers :=
       [("Ocp-Apim-Subscription-Key", AZURE_API_KEY cfg);
        ("Content-Type", Some "application/ssml+xml");
        ("X-Microsoft-OutputFormat", Some "audio-24khz-96kbitrate-mono-mp3")];
     req_params := [];
     req_body := DataBody ssml |}.

(** [names] are the candidate names the temporary-file name generator
    yields for this call. *)
Definition text_to_speech (text language : string) (names : list string) : M retval :=
  output_path ← NamedTemporaryFile ".mp3" "temp_audio" names;
  try_finally
    (try_except
       (let voice := voice_of language in
        let lang_code := lang_code_of language in
        let ssml := ssml_of lang_code voice text in
        response ← requests_send (tts_request ssml);
        (if negb (status_code response =? 200) then
           raise (HTTPException 500 ("Azure TTS error: " +:+ resp_text response))
         else mret ());;
        open_write output_path (content response);;
        present ← os_path_exists output_path;
        (if negb present then
           raise (HTTPException 500 ("Failed to create audio file: " +:+ output_path))
         else mret ());;
        mret (RFile output_path "audio/mpeg"
                    ("output_" +:+ PyStr.basename output_path)))
       [(any_Exception, λ e, raise (HTTPException 500 (str_exn e)))])
    (mret ()).

(** *** Shutdown and startup hooks *)

(** [for file in files: try: if os.path.exists(file): os.remove(file)
    except Exception: print(...)] *)
Fixpoint sweep (files : list string) : M unit :=
  match files with
  | [] => mret ()
  | file :: rest =>
      try_except (remove_if_exists file) [(any_Exception, λ _, mret ())];;
      sweep rest
  end.

Definition cleanup_temp_files : M unit :=
  files ← glob_glob "temp_audio/output_*.mp3";
  sweep files.

Definition startup_event : M unit :=
  if negb (truthy (ASSEMBLYAI_API_KEY cfg) && truthy (GOOGLE_API_KEY cfg)
           && truthy (AZURE_API_KEY cfg) && truthy (AZURE_REGION cfg))
  then raise (RuntimeError "Missing API keys in .env file")
  else mret ().

(** *** GET /get-realtime-token *)

Definition key_test_request : request :=
  {| req_method := GET;
     req_url := "https://api.assemblyai.com/v2/transcript";
     req_headers := [("authorization", ASSEMBLYAI_API_KEY cfg)];
     req_params := [];
     req_body := NoBody |}.

Definition token_request : request :=
  {| req_method := GET;
     req_url := "https://streaming.assemblyai.com/v3/token";
     req_headers := [("Authorization", ASSEMBLYAI_API_KEY cfg)];
     req_params := [("expires_in_seconds", JInt 600)];
     req_body := NoBody |}.

Definition msg_key_missing : string := "AssemblyAI API key not found".
Definition msg_key_test_failed : string :=
  "Invalid AssemblyAI API key - basic API test failed".
Definition msg_unauthorized : string :=
  "Invalid AssemblyAI API key for Universal Streaming API".
Definition msg_forbidden : string :=
  "Universal Streaming API access denied. Your AssemblyAI account may not have streaming access. Please check your plan at https://www.assemblyai.com/dashboard/".
Definition msg_not_found : string :=
  "Universal Streaming API endpoint not found. This feature may not be available in your region or plan.".
Definition msg_other (response : response) : string :=
  "AssemblyAI Universal Streaming API returned " +:+ pretty (status_code response)
  +:+ ": " +:+ resp_text response.

Definition get_realtime_token : M retval :=
  try_except
    ((if negb (truthy (ASSEMBLYAI_API_KEY cfg)) then
        raise (PyException msg_key_missing)
      else mret ());;
     _ ← lift (slice_prefix (ASSEMBLYAI_API_KEY cfg) 8);
     test_response ← requests_send key_test_request;
     (if status_code test_response =? 401 then
        raise (PyException msg_key_test_failed)
      else mret ());;
     response ← requests_send token_request;
     (if status_code response =? 401 then raise (PyException msg_unauthorized)
      else if status_code response =? 403 then raise (PyException msg_forbidden)
      else if status_code response =? 404 then raise (PyException msg_not_found)
      else if negb (status_code response =? 200) then
        raise (PyException (msg_other response))
      else mret ());;
     try_except
       (token_data ← response_json response;
        has_token ← lift (contains_str token_data "token");
        (if negb has_token then
           raise (PyException ("No token in response: " +:+ py_str token_data))
         else mret ());;
        token ← lift (getitem_str token_data "token");
        token' ← lift (getitem_str token_data "token");
        mret (RJson (JObj
                [("token", token);
                 ("api_host", JStr "streaming.assemblyai.com");
                 ("websocket_url",
                  JStr ("wss://streaming.assemblyai.com/v3/streaming?token="
                        +:+ py_str token'))])))
       [(is_ValueError,
         λ json_error,
           raise (PyException ("Invalid JSON response: " +:+ resp_text response)))])
    [(is_RequestException,
      λ req_error,
        raise (HTTPException 500
                 ("Network error connecting to AssemblyAI: " +:+ str_exn req_error)));
     (any_Exception,
      λ e,
        raise (HTTPException 500
                 ("Failed to create Universal Streaming token: " +:+ str_exn e)))].

End Handlers.

(** ** What the client sees *)

(** The framework's answer to a handler's outcome: the returned value with
    status 200, the status and detail of a raised [HTTPException], or its
    plain 500 answer for any other exception. *)
Inductive reply :=
| Success (v : retval)
| Failure (status : Z) (detail : string)
| InternalServerError.

Definition serve (r : result retval) : reply :=
  match r with
  | Ok v => Success v
  | Raise (HTTPException status detail) => Failure status detail
  | Raise _ => InternalServerError
  end.

Definition reply_status (r : reply) : Z :=
  match r with
  | Success _ => 200
  | Failure status _ => status
  | InternalServerError => 500
  end.

(** ** Reading a provider response *)

(** [raise_for_status] lets the response through. *)
Definition succeeded (r : response) : bool :=
  negb ((400 <=? status_code r) && (status_code r <? 600)).

(** The value of a key of the JSON object in the body, if there is one. *)
Definition field (r : response) (k : string) : option json :=
  match json_body r with
  | Some (JObj fields) => assoc k fields
  | _ => None
  end.

(** A status poll that is answered, with a status that is neither
    ["completed"] nor ["error"]. *)
Definition pending (r : response) : bool :=
  succeeded r &&
  match field r "status" with
  | Some status => negb (eq_str status "completed") && negb (eq_str status "error")
  | None => false
  end.

(** The effects of [k] status polls that each found the job pending. *)
Definition pending_polls (status : request) (k : nat) : list event :=
  concat (replicate k [EvRequest status; EvSleep 3]).

(** The upload declares an audio media type. *)
Definition is_audio (audio : UploadFile) : bool :=
  match content_type audio with
  | Some ct => PyStr.startswith ct "audio/"
  | None => false
  end.

(** The headers of the requests to the transcription provider. *)
Definition aai_headers (cfg : config) : list (string * option string) :=
  [("authorization", ASSEMBLYAI_API_KEY cfg)].

(** The key is configured, and the upload and the submission, sent after
    [n0] earlier requests, both succeed: the first answers with the upload
    URL and the second with the job identifier. *)
Definition job_accepted (cfg : config) (net : provider) (audio : UploadFile)
    (n0 : nat) (audio_url transcript_id : json) : Prop :=
  is_Some (ASSEMBLYAI_API_KEY cfg) ∧
  ∃ up sub,
    net n0 (upload_request (aai_headers cfg) (data audio)) = Responded up
    ∧ succeeded up = true
    ∧ field up "upload_url" = Some audio_url
    ∧ net (S n0) (submit_request (aai_headers cfg) audio_url) = Responded sub
    ∧ succeeded sub = true
    ∧ field sub "id" = Some transcript_id.

(** The status polls number [1] to [k], sent after [n0] earlier requests,
    all find the job pending. *)
Definition polls_pending (net : provider) (status : request) (n0 k : nat) : Prop :=
  ∀ i, (i < k)%nat →
       ∃ r, net (n0 + i)%nat status = Responded r ∧ pending r = true.

(** The world in which the [k]-th status poll of an accepted job is sent,
    when the polls before it found the job pending: the scratch file is
    written, and the upload, the submission and [k - 1] polls are behind. *)
Definition before_poll (cfg : config) (cwd : string) (audio : UploadFile)
    (unique_id : string) (audio_url transcript_id : json) (w : world) (k : nat)
    : world :=
  {| fs := <[PyStr.abspath cwd (input_path_of audio unique_id) := data audio]> (fs w);
     trace := (trace w ++ [EvWrite (input_path_of audio unique_id) (data audio);
                           EvRequest (upload_request (aai_headers cfg) (data audio));
                           EvRequest (submit_request (aai_headers cfg) audio_url)])
              ++ pending_polls (status_request (aai_headers cfg) transcript_id) (k - 1) |}.

(** A program only appends to the trace of effects. *)
Definition appends {A} (m : M A) : Prop :=
  ∀ w, ∃ tr, trace (snd (m w)) = trace w ++ tr.

(** ** Scenarios *)

(** Concrete settings, uploads and provider stubs on which the handlers are
    run. *)
Module Scenario.

Definition cfg : config :=
  {| ASSEMBLYAI_API_KEY := Some "aai-key-0001";
     GOOGLE_API_KEY := Some "google-key";
     AZURE_API_KEY := Some "azure-key";
     AZURE_REGION := Some "westeurope" |}.

Definition cwd : string := "/app".

Definition empty_world : world := {| fs := ∅; trace := [] |}.

Definition wav : UploadFile :=
  {| content_type := Some "audio/wav";
     filename := "clip.WAV";
     data := [x52; x49; x46; x46]%byte |}.

Definition pdf : UploadFile :=
  {| content_type := Some "application/pdf";
     filename := "paper.pdf";
     data := [x25; x50; x44; x46]%byte |}.

Definition answer (status : Z) (body : string) (j : option json) : response :=
  {| status_code := status; reason := ""; resp_url := ""; resp_text := body;
     content := []; json_body := j |}.

Definition uploaded : response :=
  answer 200 "" (Some (JObj [("upload_url", JStr "https://cdn.example/u1")])).

Definition queued : response :=
  answer 200 "" (Some (JObj [("id", JStr "job-1")])).

Definition processing : response :=
  answer 200 "" (Some (JObj [("id", JStr "job-1"); ("status", JStr "processing")])).

Definition completed : response :=
  answer 200 "" (Some (JObj [("status", JStr "completed"); ("text", JStr "hola")])).

Definition failed : response :=
  answer 200 "" (Some (JObj [("status", JStr "error");
                             ("error", JStr "Audio duration is too short")])).

(** The job is accepted, found processing once and completed on the
    second poll, without a language code. *)
Definition completes_on_second_poll : provider :=
  λ n _, match n with
         | 0%nat => Responded uploaded
         | 1%nat => Responded queued
         | 2%nat => Responded processing
         | _ => Responded completed
         end.

(** The job is accepted and stays in processing. *)
Definition never_finishes : provider :=
  λ n _, match n with
         | 0%nat => Responded uploaded
         | 1%nat => Responded queued
         | _ => Responded processing
         end.

(** The job is accepted, found processing once and failed on the second
    poll. *)
Definition fails_on_second_poll : provider :=
  λ n _, match n with
         | 0%nat => Responded uploaded
         | 1%nat => Responded queued
         | 2%nat => Responded processing
         | _ => Responded failed
         end.

(** The synthesis provider answers with audio. *)
Definition mp3 : bytes := [xff; xf3; x44; xc4]%byte.

Definition synthesizes : provider :=
  λ _ _, Responded {| status_code := 200; reason := "OK"; resp_url := "";
                      resp_text := ""; content := mp3; json_body := None |}.

(** The synthesis provider rejects the subscription key. *)
Definition rejects : provider :=
  λ _ _, Responded (answer 401 "Access denied due to invalid subscription key" None).

(** The translation provider answers any request alike. *)
Definition translates : provider :=
  λ _ _, Responded (answer 200 ""
           (Some (JObj [("data",
                         JObj [("translations",
                                JArr [JObj [("translatedText", JStr "hello")]])])]))).

(** The key passes the test call and the token endpoint answers [403]. *)
Definition streaming_forbidden : provider :=
  λ n _, match n with
         | 0%nat => Responded (answer 200 "" (Some (JObj [("transcripts", JArr [])])))
         | _ => Responded (answer 403 "Forbidden" None)
         end.

End Scenario.

(** ** Measures of the effects *)

(** The seconds slept among the effects. *)
Definition slept (tr : list event) : Z :=
  foldr (λ ev acc, match ev with EvSleep seconds => seconds + acc | _ => acc end) 0 tr.

(** A program that leaves the filesystem as it is, sends at most [r]
    requests and sleeps at most [s] seconds. *)
Definition effects {A} (r : nat) (s : Z) (m : M A) : Prop :=
  ∀ w, ∃ tr, trace (snd (m w)) = trace w ++ tr
             ∧ fs (snd (m w)) = fs w
             ∧ (length (sent tr) ≤ r)%nat
             ∧ 0 ≤ slept tr ≤ s.

(** The outcome is a returned value or a 500 with a detail; no other status
    and no unhandled exception. *)
Definition success_or_500 (r : reply) : Prop :=
  (∃ v, r = Success v) ∨ (∃ detail, r = Failure 500 detail).

(** A setting that is present in the environment and not empty. *)
Definition configured (x : option string) : Prop :=
  ∃ s, x = Some s ∧ s ≠ "".

(** ** Further scenarios *)

Module Cases.

(** The settings when the transcription key is not in the environment. *)
Definition no_key : config :=
  {| ASSEMBLYAI_API_KEY := None;
     GOOGLE_API_KEY := Some "google-key";
     AZURE_API_KEY := Some "azure-key";
     AZURE_REGION := Some "westeurope" |}.

Definition unauthorized : response :=
  {| status_code := 401; reason := "Unauthorized";
     resp_url := "https://api.assemblyai.com/v2/upload";
     resp_text := ""; content := []; json_body := None |}.

Definition bad_gateway : response :=
  {| status_code := 502; reason := "Bad Gateway";
     resp_url := "https://api.assemblyai.com/v2/transcript/job-1";
     resp_text := ""; content := []; json_body := None |}.

Definition completed_without_text : response :=
  Scenario.answer 200 "" (Some (JObj [("status", JStr "completed")])).

(** The upload is refused. *)
Definition refuses_upload : provider := λ _ _, Responded unauthorized.

(** The provider cannot be reached. *)
Definition unreachable : provider := λ _ _, Failed "Connection refused".

(** The upload is accepted and the submission refused. *)
Definition refuses_submit : provider :=
  λ n _, match n with
         | 0%nat => Responded Scenario.uploaded
         | _ => Responded unauthorized
         end.

(** The job is accepted and found processing once; the second poll is
    answered by a gateway error. *)
Definition breaks_on_second_poll : provider :=
  λ n _, match n with
         | 0%nat => Responded Scenario.uploaded
         | 1%nat => Responded Scenario.queued
         | 2%nat => Responded Scenario.processing
         | _ => Responded bad_gateway
         end.

(** The job is accepted and completed on the first poll, without a text. *)
Definition completes_without_text : provider :=
  λ n _, match n with
         | 0%nat => Responded Scenario.uploaded
         | 1%nat => Responded Scenario.queued
         | _ => Responded completed_without_text
         end.

(** The translation provider answers with an empty list of translations. *)
Definition no_translation : response :=
  Scenario.answer 200 ""
    (Some (JObj [("data", JObj [("translations", JArr [])])])).

Definition translates_nothing : provider := λ _ _, Responded no_translation.

(** The translation provider refuses the key. *)
Definition forbidden : response :=
  {| status_code := 403; reason := "Forbidden";
     resp_url := "https://translation.googleapis.com/language/translate/v2?key=google-key";
     resp_text := ""; content := []; json_body := None |}.

Definition refuses_translation : provider := λ _ _, Responded forbidden.

(** The settings when the transcription key is set to the empty string. *)
Definition empty_key : config :=
  {| ASSEMBLYAI_API_KEY := Some "";
     GOOGLE_API_KEY := Some "google-key";
     AZURE_API_KEY := Some "azure-key";
     AZURE_REGION := Some "westeurope" |}.

(** The key fails the test call. *)
Definition rejects_key : provider :=
  λ _ _, Responded (Scenario.answer 401 "Unauthorized" None).

Definition listing : response :=
  Scenario.answer 200 "" (Some (JObj [("transcripts", JArr [])])).

(** The key passes the test call and the token endpoint answers 200 with a
    page that is not JSON. *)
Definition answers_with_page : provider :=
  λ n _, match n with
         | 0%nat => Responded listing
         | _ => Responded (Scenario.answer 200 "<html>maintenance</html>" None)
         end.

(** The key passes the test call and the token endpoint cannot be
    reached. *)
Definition token_unreachable : provider :=
  λ n _, match n with
         | 0%nat => Responded listing
         | _ => Failed "Connection reset by peer"
         end.

End Cases.

(** * Properties of the handlers *)

(** ** Running programs of the monad *)

Section Run.

Context {A B : Type}.

Lemma bind_ok (m : M A) (f : A → M B) w a w' :
  m w = (Ok a, w') → (m ≫= f) w = f a w'.
Proof. intros H. unfold mbind, M_bind. by rewrite H. Qed.

End Run.

Lemma sent_app tr1 tr2 : sent (tr1 ++ tr2) = sent tr1 ++ sent tr2.
Proof. apply omap_app. Qed.

Lemma sent_emit_request r w : sent (trace (emit (EvRequest r) w)) = sent (trace w) ++ [r].
Proof. unfold emit; simpl. by rewrite sent_app. Qed.

Lemma sent_pending_polls status k :
  sent (pending_polls status k) = replicate k status.
Proof.
  unfold pending_polls. induction k as [|k IH]; [done|].
  simpl. by rewrite IH.
Qed.

(** ** Reading responses *)

Lemma succeeded_passes r w :
  succeeded r = true → raise_for_status r w = (Ok (), w).
Proof.
  unfold succeeded, raise_for_status. intros H.
  destruct ((400 <=? status_code r) && (status_code r <? 500)) eqn:E4.
  - apply andb_prop in E4 as [H1 H2].
    rewrite H1 in H. simpl in H.
    assert ((status_code r <? 600) = true) by lia. rewrite H0 in H. done.
  - destruct ((500 <=? status_code r) && (status_code r <? 600)) eqn:E5; [|done].
    apply andb_prop in E5 as [H1 H2]. rewrite H2 in H.
    assert ((400 <=? status_code r) = true) by lia. rewrite H0 in H. done.
Qed.

Lemma field_read r k v w :
  field r k = Some v →
  ∃ j, response_json r w = (Ok j, w) ∧ getitem_str j k = Ok v.
Proof.
  unfold field, response_json. intros H.
  destruct (json_body r) as [[| | | | |fields]|]; try done.
  exists (JObj fields). split; [done|]. simpl. by rewrite H.
Qed.

Lemma field_get r k v d w :
  field r k = Some v →
  ∃ j, response_json r w = (Ok j, w)
       ∧ dict_get j "language_code" d = Ok (default d (field r "language_code")).
Proof.
  unfold field, response_json. intros H.
  destruct (json_body r) as [[| | | | |fields]|]; try done.
  by exists (JObj fields).
Qed.

(** ** The polling loop *)

Section Polling.

Variable net : provider.
Variable headers : list (string * option string).
Variable transcript_id : json.

Let status := status_request headers transcript_id.

(** A poll that finds the job pending sleeps and leaves one attempt less. *)
Lemma poll_pending_step n w r :
  net (length (sent (trace w))) status = Responded r →
  pending r = true →
  poll net (S n) headers transcript_id w
  = poll net n headers transcript_id
      {| fs := fs w; trace := trace w ++ [EvRequest status; EvSleep 3] |}.
Proof.
  intros Hnet Hp. unfold pending in Hp.
  apply andb_prop in Hp as [Hs Hst].
  destruct (field r "status") as [st|] eqn:Hf; [|done].
  apply andb_prop in Hst as [Hc He].
  apply negb_true_iff in Hc, He.
  simpl.
  erewrite bind_ok; last by (unfold requests_send; fold status; rewrite Hnet).
  erewrite bind_ok; last by apply succeeded_passes.
  destruct (field_read r "status" st (emit (EvRequest status) w) Hf) as (j & Hj & Hg).
  erewrite bind_ok; last exact Hj.
  erewrite bind_ok; last by (unfold lift; rewrite Hg).
  rewrite Hc, He.
  erewrite bind_ok; last reflexivity.
  unfold emit; simpl. by rewrite <- app_assoc.
Qed.

(** [k] polls in a row that find the job pending. *)
Lemma poll_pending_run k : ∀ n w,
  polls_pending net status (length (sent (trace w))) k →
  poll net (k + n) headers transcript_id w
  = poll net n headers transcript_id
      {| fs := fs w; trace := trace w ++ pending_polls status k |}.
Proof.
  induction k as [|k IH]; intros n w H.
  - simpl. unfold pending_polls; simpl. rewrite app_nil_r. by destruct w.
  - destruct (H 0%nat) as (r & Hr & Hp); [lia|].
    rewrite Nat.add_0_r in Hr.
    change (S k + n)%nat with (S (k + n)).
    rewrite (poll_pending_step _ _ r Hr Hp).
    rewrite IH.
    + simpl. rewrite <- app_assoc. reflexivity.
    + intros i Hi. simpl.
      destruct (H (S i)) as (r' & Hr' & Hp'); [lia|].
      exists r'. split; [|done].
      rewrite sent_app. simpl. rewrite length_app. simpl.
      by replace (length (sent (trace w)) + 1 + i)%nat
        with (length (sent (trace w)) + S i)%nat by lia.
Qed.

(** A poll that finds the job completed returns the transcript. *)
Lemma poll_completed n w r text :
  net (length (sent (trace w))) status = Responded r →
  succeeded r = true →
  field r "status" = Some (JStr "completed") →
  field r "text" = Some text →
  poll net (S n) headers transcript_id w
  = (Ok (RJson (JObj [("text", text);
                      ("language_detected",
                       default (JStr "unknown") (field r "language_code"))])),
     emit (EvRequest status) w).
Proof.
  intros Hnet Hs Hst Ht. simpl.
  erewrite bind_ok; last by (unfold requests_send; fold status; rewrite Hnet).
  erewrite bind_ok; last by apply succeeded_passes.
  destruct (field_read r "status" _ (emit (EvRequest status) w) Hst) as (j & Hj & Hg).
  erewrite bind_ok; last exact Hj.
  erewrite bind_ok; last by (unfold lift; rewrite Hg).
  simpl.
  destruct (field_read r "text" _ (emit (EvRequest status) w) Ht) as (j' & Hj' & Hg').
  erewrite bind_ok; last exact Hj'.
  erewrite bind_ok; last by (unfold lift; rewrite Hg').
  destruct (field_get r "text" _ (JStr "unknown") (emit (EvRequest status) w) Ht)
    as (j'' & Hj'' & Hg'').
  erewrite bind_ok; last exact Hj''.
  erewrite bind_ok; last by (unfold lift; rewrite Hg'').
  reflexivity.
Qed.

(** A poll that finds the job failed raises with the provider's message. *)
Lemma poll_error n w r error :
  net (length (sent (trace w))) status = Responded r →
  succeeded r = true →
  field r "status" = Some (JStr "error") →
  field r "error" = Some error →
  poll net (S n) headers transcript_id w
  = (Raise (HTTPException 500 ("AssemblyAI error: " +:+ py_str error)),
     emit (EvRequest status) w).
Proof.
  intros Hnet Hs Hst He. simpl.
  erewrite bind_ok; last by (unfold requests_send; fold status; rewrite Hnet).
  erewrite bind_ok; last by apply succeeded_passes.
  destruct (field_read r "status" _ (emit (EvRequest status) w) Hst) as (j & Hj & Hg).
  erewrite bind_ok; last exact Hj.
  erewrite bind_ok; last by (unfold lift; rewrite Hg).
  simpl.
  destruct (field_read r "error" _ (emit (EvRequest status) w) He) as (j' & Hj' & Hg').
  erewrite bind_ok; last exact Hj'.
  erewrite bind_ok; last by (unfold lift; rewrite Hg').
  reflexivity.
Qed.

End Polling.

(** ** The transcription handler *)

Section Transcribe.

Variable cfg : config.
Variable cwd : string.
Variable net : provider.
Variable audio : UploadFile.
Variable unique_id : string.

Let input_path := input_path_of audio unique_id.
Let scratch := PyStr.abspath cwd input_path.

(** The [finally] block never raises; it leaves the file absent and sends
    nothing. *)
Lemma remove_if_exists_run path w :
  ∃ w', remove_if_exists cwd path w = (Ok (), w')
        ∧ fs w' = delete (PyStr.abspath cwd path) (fs w)
        ∧ sent (trace w') = sent (trace w).
Proof.
  unfold remove_if_exists, os_path_exists, os_remove, mbind, M_bind.
  destruct (fs w !! PyStr.abspath cwd path) as [d|] eqn:E.
  - rewrite bool_decide_eq_true_2 by eauto. rewrite E.
    eexists; split; [reflexivity|]. simpl. split; [done|].
    rewrite sent_app. simpl. by rewrite app_nil_r.
  - rewrite bool_decide_eq_false_2 by (intros [? ?]; congruence).
    exists w. split; [done|]. split; [|done].
    symmetry. by apply delete_id.
Qed.

Lemma finally_remove {A} (m : M A) path w :
  ∃ w', try_finally m (remove_if_exists cwd path) w = (fst (m w), w')
        ∧ fs w' = delete (PyStr.abspath cwd path) (fs (snd (m w)))
        ∧ sent (trace w') = sent (trace (snd (m w))).
Proof.
  unfold try_finally. destruct (m w) as [r w1]. simpl.
  destruct (remove_if_exists_run path w1) as (w' & -> & Hfs & Hs).
  by exists w'.
Qed.

(** An audio upload passes the media-type check and enters the guarded
    block. *)
Lemma transcribe_audio_guarded w :
  is_audio audio = true →
  transcribe_audio cfg cwd net audio unique_id w
  = try_finally
      (try_except (transcribe_job cfg cwd net audio input_path)
         [(any_Exception, λ e, raise (HTTPException 500 (str_exn e)))])
      (remove_if_exists cwd input_path) w.
Proof.
  unfold is_audio, transcribe_audio. intros H.
  destruct (content_type audio) as [ct|]; [|done].
  erewrite bind_ok; last reflexivity.
  by rewrite H.
Qed.

(** Once the provider has accepted the job, the handler is at the polling
    loop with the scratch file written and two requests sent. *)
Lemma transcribe_job_accepted w audio_url transcript_id :
  job_accepted cfg net audio (length (sent (trace w))) audio_url transcript_id →
  transcribe_job cfg cwd net audio input_path w
  = poll net 30 (aai_headers cfg) transcript_id
      {| fs := <[scratch := data audio]> (fs w);
         trace := trace w ++
                  [EvWrite input_path (data audio);
                   EvRequest (upload_request (aai_headers cfg) (data audio));
                   EvRequest (submit_request (aai_headers cfg) audio_url)] |}.
Proof.
  intros ([key Hkey] & up & sub & Hup & Hups & Hupf & Hsub & Hsubs & Hsubf).
  unfold transcribe_job. fold (aai_headers cfg).
  erewrite bind_ok; last reflexivity.
  erewrite bind_ok; last by (unfold lift; rewrite Hkey).
  erewrite bind_ok; last by (unfold open_read; simpl; rewrite lookup_insert_eq).
  erewrite bind_ok; last first.
  { unfold requests_send; simpl. rewrite sent_app; simpl. rewrite app_nil_r.
    by rewrite Hup. }
  erewrite bind_ok; last by apply succeeded_passes.
  edestruct (field_read up "upload_url") as (j & Hj & Hg); [exact Hupf|].
  erewrite bind_ok; last exact Hj.
  erewrite bind_ok; last by (unfold lift; rewrite Hg).
  erewrite bind_ok; last first.
  { unfold requests_send, emit; simpl.
    rewrite !sent_app; simpl. rewrite app_nil_r, length_app; simpl.
    rewrite Nat.add_1_r. by rewrite Hsub. }
  erewrite bind_ok; last by apply succeeded_passes.
  edestruct (field_read sub "id") as (j' & Hj' & Hg'); [exact Hsubf|].
  erewrite bind_ok; last exact Hj'.
  erewrite bind_ok; last by (unfold lift; rewrite Hg').
  unfold emit; simpl. by rewrite <- !app_assoc.
Qed.

End Transcribe.

Section TranscribeOutcomes.

Variable cfg : config.
Variable cwd : string.
Variable net : provider.
Variable audio : UploadFile.
Variable unique_id : string.
Variable w : world.
Variable audio_url transcript_id : json.

Let n0 := length (sent (trace w)).
Let status := status_request (aai_headers cfg) transcript_id.
Let upload := upload_request (aai_headers cfg) (data audio).
Let submit := submit_request (aai_headers cfg) audio_url.
Let at_poll := before_poll cfg cwd audio unique_id audio_url transcript_id w.

Lemma sent_before_poll k :
  sent (trace (at_poll k))
  = sent (trace w) ++ [upload; submit] ++ replicate (k - 1) status.
Proof.
  unfold at_poll, before_poll; simpl.
  rewrite !sent_app, sent_pending_polls. simpl. by rewrite <- app_assoc.
Qed.

Lemma length_sent_before_poll k :
  length (sent (trace (at_poll k))) = (n0 + 2 + (k - 1))%nat.
Proof.
  rewrite sent_before_poll, !length_app, length_replicate. simpl. unfold n0. lia.
Qed.

(** The [k]-th status request completes the list of [k] of them. *)
Lemma sent_after_poll k :
  (1 ≤ k)%nat →
  sent (trace (emit (EvRequest status) (at_poll k)))
  = sent (trace w) ++ [upload; submit] ++ replicate k status.
Proof.
  intros Hk. rewrite sent_emit_request, sent_before_poll.
  rewrite <- !app_assoc. do 2 f_equal. simpl. do 2 f_equal.
  replace k with (S (k - 1)) at 2 by lia. by rewrite replicate_S_end.
Qed.

(** After [k - 1] pending polls an accepted job is at its [k]-th attempt. *)
Lemma job_at_poll k :
  job_accepted cfg net audio n0 audio_url transcript_id →
  (1 ≤ k ≤ 31)%nat →
  polls_pending net status (n0 + 2) (k - 1) →
  transcribe_job cfg cwd net audio (input_path_of audio unique_id) w
  = poll net (31 - k) (aai_headers cfg) transcript_id (at_poll k).
Proof.
  intros Hacc Hk Hp.
  rewrite (transcribe_job_accepted _ _ _ _ _ _ audio_url transcript_id Hacc).
  replace 30%nat with ((k - 1) + (31 - k))%nat at 1 by lia.
  rewrite poll_pending_run; [reflexivity|].
  simpl. rewrite sent_app. simpl. rewrite length_app. simpl.
  by replace (length (sent (trace w)) + 2)%nat with (n0 + 2)%nat by done.
Qed.

(** The whole handler, from the outcome of the guarded block: a returned
    value passes, an exception is rendered into the detail of a 500, and
    the [finally] block sends nothing. *)
Lemma handler_from_job r w1 :
  is_audio audio = true →
  transcribe_job cfg cwd net audio (input_path_of audio unique_id) w = (r, w1) →
  ∃ w',
    transcribe_audio cfg cwd net audio unique_id w
    = (match r with
       | Ok v => Ok v
       | Raise e => Raise (HTTPException 500 (str_exn e))
       end, w')
    ∧ sent (trace w') = sent (trace w1).
Proof.
  intros Haudio Hjob.
  rewrite transcribe_audio_guarded by done.
  edestruct finally_remove as (w' & -> & _ & Hs).
  exists w'. rewrite Hs. unfold try_except. rewrite Hjob.
  by destruct r.
Qed.

End TranscribeOutcomes.

(** ** Effects are only appended *)

Section Appends.

Context {A B : Type}.

Lemma appends_ret (a : A) : appends (mret a : M A).
Proof. intros w. exists []. simpl. by rewrite app_nil_r. Qed.

Lemma appends_raise (e : exn) : appends (raise e : M A).
Proof. intros w. exists []. simpl. by rewrite app_nil_r. Qed.

Lemma appends_lift (r : result A) : appends (lift r).
Proof. intros w. exists []. simpl. by rewrite app_nil_r. Qed.

Lemma appends_bind (m : M A) (f : A → M B) :
  appends m → (∀ a, appends (f a)) → appends (m ≫= f).
Proof.
  intros Hm Hf w. unfold mbind, M_bind.
  destruct (Hm w) as [tr Htr]. destruct (m w) as [[a|e] w1]; simpl in Htr.
  - destruct (Hf a w1) as [tr' Htr']. exists (tr ++ tr').
    by rewrite Htr', Htr, app_assoc.
  - by exists tr.
Qed.

(** A handler clause and a [finally] block only add to what the guarded
    block has done. *)
Lemma try_except_after (m : M A) (catches : exn → bool) (h : exn → M A) w :
  (∀ e, appends (h e)) →
  ∃ tr, trace (snd (try_except m [(catches, h)] w)) = trace (snd (m w)) ++ tr.
Proof.
  intros Hh. unfold try_except. destruct (m w) as [[a|e] w1]; simpl.
  - exists []. by rewrite app_nil_r.
  - destruct (catches e); [apply Hh|]. exists []. simpl. by rewrite app_nil_r.
Qed.

Lemma try_finally_after (m : M A) (f : M unit) w :
  appends f →
  ∃ tr, trace (snd (try_finally m f w)) = trace (snd (m w)) ++ tr.
Proof.
  intros Hf. unfold try_finally. destruct (m w) as [r w1]; simpl.
  destruct (Hf w1) as [tr Htr]. exists tr.
  by destruct (f w1) as [[[]|e] w2].
Qed.

End Appends.

Lemma appends_emit {A} (r : result A) (ev : event) :
  appends (λ w, (r, emit ev w)).
Proof. intros w. by exists [ev]. Qed.

Lemma appends_requests_send net r : appends (requests_send net r).
Proof.
  intros w. unfold requests_send. exists [EvRequest r].
  by destruct (net _ r).
Qed.

Lemma appends_raise_for_status r : appends (raise_for_status r).
Proof.
  unfold raise_for_status.
  repeat case_match; (apply appends_raise || apply appends_ret).
Qed.

Lemma appends_response_json r : appends (response_json r).
Proof.
  unfold response_json. case_match; (apply appends_raise || apply appends_ret).
Qed.

Lemma appends_open_read cwd path : appends (open_read cwd path).
Proof.
  intros w. unfold open_read. exists []. rewrite app_nil_r. by case_match.
Qed.

Lemma appends_remove_if_exists cwd path : appends (remove_if_exists cwd path).
Proof.
  intros w. destruct (fs w !! PyStr.abspath cwd path) as [d|] eqn:E;
    unfold remove_if_exists, os_path_exists, os_remove, mbind, M_bind.
  - rewrite bool_decide_eq_true_2 by eauto. rewrite E. by exists [EvRemove path].
  - rewrite bool_decide_eq_false_2 by (intros [? ?]; congruence).
    exists []. simpl. by rewrite app_nil_r.
Qed.

Lemma appends_poll net attempts headers transcript_id :
  appends (poll net attempts headers transcript_id).
Proof.
  induction attempts as [|n IH]; simpl.
  - apply appends_raise.
  - apply appends_bind; [apply appends_requests_send | intros result].
    apply appends_bind; [apply appends_raise_for_status | intros _].
    apply appends_bind; [apply appends_response_json | intros j].
    apply appends_bind; [apply appends_lift | intros status].
    repeat case_match;
      repeat first
        [ apply appends_bind; [|intros ?]
        | apply appends_response_json | apply appends_lift
        | apply appends_ret | apply appends_raise
        | apply (appends_emit (Ok ()) (EvSleep 3)) | exact IH ].
Qed.

(** The guarded block of the transcription handler first writes the scratch
    file, and the handler only appends to the trace after that. *)
Lemma transcribe_writes_first cfg cwd net audio unique_id w :
  is_audio audio = true →
  ∃ tr, trace (snd (transcribe_audio cfg cwd net audio unique_id w))
        = trace w ++ EvWrite (input_path_of audio unique_id) (data audio) :: tr.
Proof.
  intros Haudio. rewrite transcribe_audio_guarded by done.
  edestruct (try_finally_after (A:=retval)) as [tr1 ->];
    [apply appends_remove_if_exists|].
  edestruct (try_except_after (A:=retval)) as [tr2 ->];
    [intros e; apply appends_raise|].
  unfold transcribe_job. unfold mbind at 1. unfold M_bind, open_write.
  match goal with
  | |- context [snd (?rest ?w1)] => assert (appends rest) as Hrest
  end.
  { repeat first
      [ apply appends_poll
      | apply appends_requests_send | apply appends_raise_for_status
      | apply appends_response_json | apply appends_lift
      | apply appends_open_read
      | apply appends_bind; [|intros ?] ]. }
  edestruct Hrest as [tr3 ->]. simpl.
  exists (tr3 ++ tr2 ++ tr1). by rewrite <- !app_assoc.
Qed.

(** ** The transcription endpoint *)

(** C1.  An audio upload whose upload and submit calls succeed, and whose job
    is found pending on the first [k - 1] polls and completed on poll [k],
    [1 <= k <= 30]: the handler returns the transcript text with the language
    code of the response, or ["unknown"] when the response has no
    [language_code], and the requests sent are the upload, the submission and
    exactly [k] status calls. *)
Theorem transcribe_completed cfg cwd net audio unique_id w audio_url transcript_id
    k r text :
  is_audio audio = true →
  job_accepted cfg net audio (length (sent (trace w))) audio_url transcript_id →
  (1 ≤ k ≤ 30)%nat →
  polls_pending net (status_request (aai_headers cfg) transcript_id)
    (length (sent (trace w)) + 2) (k - 1) →
  net (length (sent (trace w)) + 2 + (k - 1))%nat
      (status_request (aai_headers cfg) transcript_id) = Responded r →
  succeeded r = true →
  field r "status" = Some (JStr "completed") →
  field r "text" = Some text →
  serve (fst (transcribe_audio cfg cwd net audio unique_id w))
  = Success (RJson (JObj [("text", text);
                          ("language_detected",
                           match field r "language_code" with
                           | Some code => code
                           | None => JStr "unknown"
                           end)]))
  ∧ sent (trace (snd (transcribe_audio cfg cwd net audio unique_id w)))
    = sent (trace w)
      ++ [upload_request (aai_headers cfg) (data audio);
          submit_request (aai_headers cfg) audio_url]
      ++ replicate k (status_request (aai_headers cfg) transcript_id).
Proof.
  intros Haudio Hacc Hk Hp Hnet Hs Hst Ht.
  edestruct (handler_from_job cfg cwd net audio unique_id w) as (w' & -> & Hsent);
    [exact Haudio | |].
  { rewrite (job_at_poll _ _ _ _ _ _ audio_url transcript_id k Hacc) by (done || lia).
    replace (31 - k)%nat with (S (30 - k)) by lia.
    apply (poll_completed net _ _ _ _ r text); try done.
    by rewrite length_sent_before_poll. }
  simpl. split.
  - by destruct (field r "language_code").
  - rewrite Hsent. apply sent_after_poll. lia.
Qed.

Lemma transcribe_completed_witness :
  serve (fst (transcribe_audio Scenario.cfg Scenario.cwd
                Scenario.completes_on_second_poll Scenario.wav "u-1"
                Scenario.empty_world))
  = Success (RJson (JObj [("text", JStr "hola");
                          ("language_detected", JStr "unknown")]))
  ∧ length (sent (trace (snd (transcribe_audio Scenario.cfg Scenario.cwd
                                Scenario.completes_on_second_poll Scenario.wav "u-1"
                                Scenario.empty_world)))) = 4%nat.
Proof.
  pose proof (transcribe_completed Scenario.cfg Scenario.cwd
                Scenario.completes_on_second_poll Scenario.wav "u-1"
                Scenario.empty_world (JStr "https://cdn.example/u1") (JStr "job-1")
                2 Scenario.completed (JStr "hola")) as H.
  destruct H as [H1 H2].
  - reflexivity.
  - split; [eexists; reflexivity|].
    exists Scenario.uploaded, Scenario.queued. repeat split; reflexivity.
  - lia.
  - intros i Hi. destruct i as [|i]; [|lia].
    exists Scenario.processing. split; reflexivity.
  - reflexivity.
  - reflexivity.
  - reflexivity.
  - reflexivity.
  - split; [exact H1|]. rewrite H2. reflexivity.
Defined.

(** C2.  An accepted job that all 30 status polls find pending: exactly 30
    status calls are sent and the client gets status 500.  The detail is the
    text of the timeout exception as the catch-all clause of the handler
    renders it, that is the message "Transcription timeout" behind the
    prefix "500: ", and not the message alone. *)
Theorem transcribe_timeout cfg cwd net audio unique_id w audio_url transcript_id :
  is_audio audio = true →
  job_accepted cfg net audio (length (sent (trace w))) audio_url transcript_id →
  polls_pending net (status_request (aai_headers cfg) transcript_id)
    (length (sent (trace w)) + 2) 30 →
  serve (fst (transcribe_audio cfg cwd net audio unique_id w))
  = Failure 500 "500: Transcription timeout"
  ∧ serve (fst (transcribe_audio cfg cwd net audio unique_id w))
    ≠ Failure 500 "Transcription timeout"
  ∧ sent (trace (snd (transcribe_audio cfg cwd net audio unique_id w)))
    = sent (trace w)
      ++ [upload_request (aai_headers cfg) (data audio);
          submit_request (aai_headers cfg) audio_url]
      ++ replicate 30 (status_request (aai_headers cfg) transcript_id).
Proof.
  intros Haudio Hacc Hp.
  edestruct (handler_from_job cfg cwd net audio unique_id w) as (w' & -> & Hsent);
    [exact Haudio | |].
  { rewrite (job_at_poll _ _ _ _ _ _ audio_url transcript_id 31 Hacc) by (done || lia).
    reflexivity. }
  simpl. repeat split; [discriminate|].
  rewrite Hsent.
  by rewrite (sent_before_poll cfg cwd audio unique_id w audio_url transcript_id 31).
Qed.

Lemma transcribe_timeout_witness :
  serve (fst (transcribe_audio Scenario.cfg Scenario.cwd Scenario.never_finishes
                Scenario.wav "u-1" Scenario.empty_world))
  = Failure 500 "500: Transcription timeout"
  ∧ length (sent (trace (snd (transcribe_audio Scenario.cfg Scenario.cwd
                                Scenario.never_finishes Scenario.wav "u-1"
                                Scenario.empty_world)))) = 32%nat.
Proof.
  pose proof (transcribe_timeout Scenario.cfg Scenario.cwd Scenario.never_finishes
                Scenario.wav "u-1" Scenario.empty_world
                (JStr "https://cdn.example/u1") (JStr "job-1")) as H.
  destruct H as (H1 & _ & H2).
  - reflexivity.
  - split; [eexists; reflexivity|].
    exists Scenario.uploaded, Scenario.queued. repeat split; reflexivity.
  - intros i Hi. exists Scenario.processing. split; reflexivity.
  - split; [exact H1|]. rewrite H2. reflexivity.
Defined.

(** C3.  An upload that passes the media-type check: the handler first
    writes the scratch input file, and whatever the providers answer, and
    whichever way the handler exits, that file is not in the filesystem
    afterwards. *)
Theorem scratch_input_removed cfg cwd net audio unique_id w :
  is_audio audio = true →
  (∃ tr, trace (snd (transcribe_audio cfg cwd net audio unique_id w))
         = trace w ++ EvWrite (input_path_of audio unique_id) (data audio) :: tr)
  ∧ fs (snd (transcribe_audio cfg cwd net audio unique_id w))
      !! PyStr.abspath cwd (input_path_of audio unique_id) = None.
Proof.
  intros Haudio. split.
  - by apply transcribe_writes_first.
  - rewrite transcribe_audio_guarded by done.
    edestruct finally_remove as (w' & -> & Hfs & _).
    simpl. rewrite Hfs. apply lookup_delete_eq.
Qed.

Lemma scratch_input_removed_witness :
  fs (snd (transcribe_audio Scenario.cfg Scenario.cwd Scenario.fails_on_second_poll
             Scenario.wav "u-1" Scenario.empty_world))
    !! "/app/temp_audio/input_u-1.wav" = None.
Proof.
  apply (scratch_input_removed Scenario.cfg Scenario.cwd
           Scenario.fails_on_second_poll Scenario.wav "u-1" Scenario.empty_world).
  reflexivity.
Defined.

(** C4.  An upload whose declared content type does not start with
    ["audio/"]: the handler raises the 400 error at once; the filesystem and
    the trace are unchanged, so no scratch file was created and no request
    was sent. *)
Theorem transcribe_rejects_non_audio cfg cwd net audio unique_id w ct :
  content_type audio = Some ct →
  PyStr.startswith ct "audio/" = false →
  serve (fst (transcribe_audio cfg cwd net audio unique_id w))
  = Failure 400 "Invalid audio file"
  ∧ reply_status (serve (fst (transcribe_audio cfg cwd net audio unique_id w))) = 400
  ∧ fs (snd (transcribe_audio cfg cwd net audio unique_id w)) = fs w
  ∧ trace (snd (transcribe_audio cfg cwd net audio unique_id w)) = trace w.
Proof.
  intros Hct Hpre. unfold transcribe_audio. rewrite Hct.
  erewrite bind_ok; last reflexivity.
  rewrite Hpre. simpl. done.
Qed.

Lemma transcribe_rejects_non_audio_witness :
  serve (fst (transcribe_audio Scenario.cfg Scenario.cwd Scenario.never_finishes
                Scenario.pdf "u-2" Scenario.empty_world))
  = Failure 400 "Invalid audio file"
  ∧ trace (snd (transcribe_audio Scenario.cfg Scenario.cwd Scenario.never_finishes
                  Scenario.pdf "u-2" Scenario.empty_world)) = [].
Proof.
  pose proof (transcribe_rejects_non_audio Scenario.cfg Scenario.cwd
                Scenario.never_finishes Scenario.pdf "u-2" Scenario.empty_world
                "application/pdf") as H.
  destruct H as (H1 & _ & _ & H2).
  - reflexivity.
  - reflexivity.
  - split; [exact H1 | exact H2].
Defined.

Lemma prefix_refl s : String.prefix s s = true.
Proof.
  induction s as [|c s IH]; [done|].
  simpl. by destruct (ascii_dec c c).
Qed.

Lemma contains_suffix pre s : PyStr.contains (pre +:+ s) s = true.
Proof.
  induction pre as [|c pre IH].
  - change ("" +:+ s) with s. destruct s as [|a s]; [done|].
    change (PyStr.contains (String a s) (String a s))
      with (String.prefix (String a s) (String a s) || PyStr.contains s (String a s)).
    by rewrite prefix_refl.
  - change (String c pre +:+ s) with (String c (pre +:+ s)).
    simpl. rewrite IH. apply orb_true_r.
Qed.

(** C5.  An accepted job that is found pending on the first [k - 1] polls and
    failed on poll [k]: polling stops there, after exactly [k] status calls,
    and the client gets status 500 with a detail that ends with, and so
    contains, the provider's error message. *)
Theorem transcribe_provider_error cfg cwd net audio unique_id w audio_url
    transcript_id k r error :
  is_audio audio = true →
  job_accepted cfg net audio (length (sent (trace w))) audio_url transcript_id →
  (1 ≤ k ≤ 30)%nat →
  polls_pending net (status_request (aai_headers cfg) transcript_id)
    (length (sent (trace w)) + 2) (k - 1) →
  net (length (sent (trace w)) + 2 + (k - 1))%nat
      (status_request (aai_headers cfg) transcript_id) = Responded r →
  succeeded r = true →
  field r "status" = Some (JStr "error") →
  field r "error" = Some error →
  ∃ detail,
    serve (fst (transcribe_audio cfg cwd net audio unique_id w)) = Failure 500 detail
    ∧ detail = "500: AssemblyAI error: " +:+ py_str error
    ∧ PyStr.contains detail (py_str error) = true
    ∧ sent (trace (snd (transcribe_audio cfg cwd net audio unique_id w)))
      = sent (trace w)
        ++ [upload_request (aai_headers cfg) (data audio);
            submit_request (aai_headers cfg) audio_url]
        ++ replicate k (status_request (aai_headers cfg) transcript_id).
Proof.
  intros Haudio Hacc Hk Hp Hnet Hs Hst He.
  edestruct (handler_from_job cfg cwd net audio unique_id w) as (w' & -> & Hsent);
    [exact Haudio | |].
  { rewrite (job_at_poll _ _ _ _ _ _ audio_url transcript_id k Hacc) by (done || lia).
    replace (31 - k)%nat with (S (30 - k)) by lia.
    apply (poll_error net _ _ _ _ r error); try done.
    by rewrite length_sent_before_poll. }
  exists ("500: AssemblyAI error: " +:+ py_str error).
  split; [reflexivity|]. split; [reflexivity|]. split.
  - apply contains_suffix.
  - cbn [snd]. rewrite Hsent. apply sent_after_poll. lia.
Qed.

Lemma transcribe_provider_error_witness :
  serve (fst (transcribe_audio Scenario.cfg Scenario.cwd Scenario.fails_on_second_poll
                Scenario.wav "u-1" Scenario.empty_world))
  = Failure 500 "500: AssemblyAI error: Audio duration is too short"
  ∧ length (sent (trace (snd (transcribe_audio Scenario.cfg Scenario.cwd
                                Scenario.fails_on_second_poll Scenario.wav "u-1"
                                Scenario.empty_world)))) = 4%nat.
Proof.
  pose proof (transcribe_provider_error Scenario.cfg Scenario.cwd
                Scenario.fails_on_second_poll Scenario.wav "u-1"
                Scenario.empty_world (JStr "https://cdn.example/u1") (JStr "job-1")
                2 Scenario.failed (JStr "Audio duration is too short")) as H.
  destruct H as (detail & H1 & Hd & _ & H2).
  - reflexivity.
  - split; [eexists; reflexivity|].
    exists Scenario.uploaded, Scenario.queued. repeat split; reflexivity.
  - lia.
  - intros i Hi. destruct i as [|i]; [|lia].
    exists Scenario.processing. split; reflexivity.
  - reflexivity.
  - reflexivity.
  - reflexivity.
  - reflexivity.
  - split; [by rewrite H1, Hd|]. rewrite H2. reflexivity.
Defined.

(** ** The speech-synthesis handler *)

(** A temporary file that could be created is new, empty, named after one of
    the candidates, and its creation is the only effect. *)
Lemma mkstemp_inner_ok cwd dir pre suf names : ∀ w out w1,
  mkstemp_inner cwd dir pre suf names w = (Ok out, w1) →
  fs w !! out = None
  ∧ w1 = {| fs := <[out := []]> (fs w); trace := trace w ++ [EvWrite out []] |}
  ∧ ∃ name, name ∈ names
            ∧ out = PyStr.join (PyStr.abspath cwd dir) (pre +:+ name +:+ suf).
Proof.
  induction names as [|name rest IH]; intros w out w1 H; simpl in H.
  - discriminate.
  - destruct (fs w !! PyStr.join (PyStr.abspath cwd dir) (pre +:+ name +:+ suf))
      as [d|] eqn:E.
    + destruct (IH _ _ _ H) as (H1 & H2 & n & Hn & Hout).
      split; [done|]. split; [done|]. exists n. split; [by right | done].
    + injection H as <- <-. split; [done|]. split; [done|].
      exists name. split; [by left | done].
Qed.

Section Synthesis.

Variable cfg : config.
Variable cwd : string.
Variable net : provider.
Variable text language : string.
Variable names : list string.
Variable w : world.
Variable output_path : string.
Variable w1 : world.

Let request :=
  tts_request cfg (ssml_of (lang_code_of language) (voice_of language) text).

Hypothesis Hcreated :
  NamedTemporaryFile cwd ".mp3" "temp_audio" names w = (Ok output_path, w1).

(** The scratch file is new, and creating it is the only effect so far. *)
Lemma tts_created :
  fs w !! output_path = None
  ∧ w1 = {| fs := <[output_path := []]> (fs w);
            trace := trace w ++ [EvWrite output_path []] |}.
Proof.
  destruct (mkstemp_inner_ok _ _ _ _ _ _ _ _ Hcreated) as (H1 & H2 & _). done.
Qed.

Lemma tts_request_index :
  length (sent (trace w1)) = length (sent (trace w)).
Proof.
  destruct tts_created as [_ ->]. simpl. rewrite sent_app. simpl.
  by rewrite app_nil_r.
Qed.

(** A provider answer other than 200 ends the handler with a 500 that quotes
    the response body, right after the request. *)
Lemma tts_refused resp :
  net (length (sent (trace w))) request = Responded resp →
  status_code resp ≠ 200 →
  text_to_speech cfg cwd net text language names w
  = (Raise (HTTPException 500 ("500: Azure TTS error: " +:+ resp_text resp)),
     emit (EvRequest request) w1).
Proof.
  intros Hnet Hst. unfold text_to_speech.
  erewrite bind_ok; last exact Hcreated.
  unfold try_finally, try_except.
  erewrite bind_ok; last first.
  { unfold requests_send. rewrite tts_request_index. fold request. by rewrite Hnet. }
  apply Z.eqb_neq in Hst. rewrite Hst. reflexivity.
Qed.

(** Whatever the provider does, the handler sends the one synthesis request,
    built from the resolved voice and language code. *)
Lemma tts_sends :
  sent (trace (snd (text_to_speech cfg cwd net text language names w)))
  = sent (trace w) ++ [request].
Proof.
  unfold text_to_speech.
  erewrite bind_ok; last exact Hcreated.
  unfold try_finally, try_except, mbind, M_bind, requests_send.
  rewrite tts_request_index. fold request.
  assert (Hs : sent (trace (emit (EvRequest request) w1)) = sent (trace w) ++ [request]).
  { rewrite sent_emit_request. destruct tts_created as [_ ->]. simpl.
    rewrite sent_app. simpl. by rewrite app_nil_r. }
  destruct (net (length (sent (trace w))) request) as [resp|msg]; [|exact Hs].
  destruct (status_code resp =? 200); [|exact Hs].
  simpl. unfold os_path_exists. simpl.
  rewrite lookup_insert_eq.
  rewrite bool_decide_eq_true_2 by eauto. simpl.
  rewrite sent_app. simpl. rewrite app_nil_r. exact Hs.
Qed.

End Synthesis.

(** ** The speech-synthesis endpoint *)

(** C6.  For every language code: a code of the voice table resolves to the
    voice the table gives it and is itself the language tag of the request;
    any other code resolves to the fallback voice and the fallback tag.  The
    lookup is total, and on every call that could create its scratch file
    the handler goes on to send the synthesis request built from the
    resolved voice and tag. *)
Theorem voice_lookup language :
  (∀ voice, TTS_VOICES !! language = Some voice →
            voice_of language = voice ∧ lang_code_of language = language)
  ∧ (TTS_VOICES !! language = None →
     voice_of language = "fa-IR-FaridNeural" ∧ lang_code_of language = "fa-IR")
  ∧ (∀ cfg cwd net text names w output_path w1,
       NamedTemporaryFile cwd ".mp3" "temp_audio" names w = (Ok output_path, w1) →
       sent (trace (snd (text_to_speech cfg cwd net text language names w)))
       = sent (trace w)
         ++ [tts_request cfg (ssml_of (lang_code_of language) (voice_of language) text)]).
Proof.
  unfold voice_of, lang_code_of. split; [|split].
  - intros voice H. rewrite H. split; [done|].
    by rewrite bool_decide_eq_true_2 by eauto.
  - intros H. rewrite H. split; [done|].
    by rewrite bool_decide_eq_false_2 by (intros [? ?]; congruence).
  - intros cfg cwd net text names w output_path w1 H.
    exact (tts_sends cfg cwd net text language names w output_path w1 H).
Qed.

Lemma voice_lookup_witness :
  (voice_of "es" = "es-ES-ElviraNeural" ∧ lang_code_of "es" = "es")
  ∧ (voice_of "xx" = "fa-IR-FaridNeural" ∧ lang_code_of "xx" = "fa-IR").
Proof.
  split.
  - destruct (voice_lookup "es") as (H & _ & _). apply H. reflexivity.
  - destruct (voice_lookup "xx") as (_ & H & _). apply H. reflexivity.
Defined.

(** C10.  When the scratch output file could be created and the provider
    answers the synthesis request with a status other than 200: the file was
    created, empty, before the request was sent; the client gets status 500;
    and the file is still there, empty, when the handler has exited. *)
Theorem tts_failure_leaves_empty_file cfg cwd net text language names w
    output_path w1 resp :
  NamedTemporaryFile cwd ".mp3" "temp_audio" names w = (Ok output_path, w1) →
  net (length (sent (trace w)))
      (tts_request cfg (ssml_of (lang_code_of language) (voice_of language) text))
  = Responded resp →
  status_code resp ≠ 200 →
  fs w !! output_path = None
  ∧ serve (fst (text_to_speech cfg cwd net text language names w))
    = Failure 500 ("500: Azure TTS error: " +:+ resp_text resp)
  ∧ trace (snd (text_to_speech cfg cwd net text language names w))
    = trace w
      ++ [EvWrite output_path [];
          EvRequest (tts_request cfg
                       (ssml_of (lang_code_of language) (voice_of language) text))]
  ∧ fs (snd (text_to_speech cfg cwd net text language names w)) !! output_path
    = Some [].
Proof.
  intros Hcreated Hnet Hst.
  rewrite (tts_refused cfg cwd net text language names w output_path w1 Hcreated
             resp Hnet Hst).
  destruct (tts_created cwd names w output_path w1 Hcreated) as [Hnew ->].
  split; [exact Hnew|]. split; [reflexivity|]. simpl. split.
  - by rewrite <- app_assoc.
  - apply lookup_insert_eq.
Qed.

Lemma tts_failure_leaves_empty_file_witness :
  serve (fst (text_to_speech Scenario.cfg Scenario.cwd Scenario.rejects
                "hello" "en" ["k3v9x_q2"] Scenario.empty_world))
  = Failure 500 "500: Azure TTS error: Access denied due to invalid subscription key"
  ∧ fs (snd (text_to_speech Scenario.cfg Scenario.cwd Scenario.rejects
               "hello" "en" ["k3v9x_q2"] Scenario.empty_world))
      !! "/app/temp_audio/tmpk3v9x_q2.mp3" = Some [].
Proof.
  pose proof (tts_failure_leaves_empty_file Scenario.cfg Scenario.cwd
                Scenario.rejects "hello" "en" ["k3v9x_q2"] Scenario.empty_world
                "/app/temp_audio/tmpk3v9x_q2.mp3"
                {| fs := <["/app/temp_audio/tmpk3v9x_q2.mp3" := []]> ∅;
                   trace := [EvWrite "/app/temp_audio/tmpk3v9x_q2.mp3" []] |}
                (Scenario.answer 401 "Access denied due to invalid subscription key"
                   None)) as H.
  destruct H as (_ & H1 & _ & H2).
  - reflexivity.
  - reflexivity.
  - discriminate.
  - split; [exact H1 | exact H2].
Defined.

(** The paths the shutdown sweep visits: names of the scratch directory that
    match its pattern. *)
Lemma glob_output_files cwd w files w' :
  glob_glob cwd "temp_audio/output_*.mp3" w = (Ok files, w') →
  ∀ file, file ∈ files →
    ∃ name, file = "temp_audio/" +:+ name
            ∧ PyStr.fnmatch "output_*.mp3" name = true.
Proof.
  unfold glob_glob, mbind, M_bind, os_listdir, mret, M_ret.
  intros H file Hin. injection H as <- _.
  apply list_elem_of_fmap in Hin as (name & -> & Hname).
  apply list_elem_of_In, filter_In in Hname as [_ Hname].
  apply andb_prop in Hname as [Hname _].
  by exists name.
Qed.

(** ** Paths of the scratch directory *)

Lemma append_assoc a b c : (a +:+ b) +:+ c = a +:+ b +:+ c.
Proof.
  induction a as [|x a IH]; [done|].
  change (String x ((a +:+ b) +:+ c) = String x (a +:+ b +:+ c)). by rewrite IH.
Qed.

Lemma substring_skip c s n m : substring (S n) m (String c s) = substring n m s.
Proof. reflexivity. Qed.

(** The last character of a string that ends with a non-empty [b]. *)
Lemma last_char_app a b :
  b ≠ "" →
  PyStr.drop (Z.of_nat (String.length (a +:+ b)) - 1) (a +:+ b)
  = PyStr.drop (Z.of_nat (String.length b) - 1) b.
Proof.
  intros Hb. induction a as [|c a IH]; [done|].
  change (String c a +:+ b) with (String c (a +:+ b)).
  assert (Hlen : (1 ≤ String.length (a +:+ b))%nat).
  { destruct a; simpl; [destruct b; [done | simpl; lia] | lia]. }
  rewrite <- IH. unfold PyStr.drop.
  replace (Z.to_nat (Z.of_nat (String.length (String c (a +:+ b))) - 1))
    with (S (Z.to_nat (Z.of_nat (String.length (a +:+ b)) - 1)))
    by (simpl String.length; lia).
  rewrite substring_skip. simpl String.length. f_equal; lia.
Qed.

(** A file of the scratch directory, named through the absolute directory
    as the temporary-file generator does. *)
Lemma join_dir a b :
  PyStr.join (PyStr.join a "temp_audio") b = PyStr.join a "temp_audio" +:+ "/" +:+ b.
Proof.
  assert (H : ∃ pre, PyStr.join a "temp_audio" = pre +:+ "temp_audio").
  { unfold PyStr.join. repeat case_match.
    - by exists "".
    - by exists a.
    - exists (a +:+ "/"). by rewrite <- append_assoc. }
  destruct H as [pre ->].
  unfold PyStr.join at 1.
  rewrite last_char_app by done.
  destruct pre; reflexivity.
Qed.

(** The same file named relative to the working directory, as the sweep
    does. *)
Lemma join_file a name :
  PyStr.abspath a ("temp_audio/" +:+ name)
  = PyStr.join a "temp_audio" +:+ "/" +:+ name.
Proof.
  unfold PyStr.abspath. simpl PyStr.startswith. cbv iota.
  unfold PyStr.join. repeat case_match; try done.
  - rewrite append_assoc. reflexivity.
  - rewrite !append_assoc. reflexivity.
Qed.

(** The sweep leaves alone what is not in its list. *)
Lemma sweep_other cwd files : ∀ w p,
  (∀ file, file ∈ files → PyStr.abspath cwd file ≠ p) →
  fs (snd (sweep cwd files w)) !! p = fs w !! p.
Proof.
  induction files as [|file rest IH]; intros w p H; [done|].
  simpl. unfold mbind at 1. unfold M_bind, try_except.
  destruct (remove_if_exists_run cwd file w) as (w' & -> & Hfs & _).
  rewrite IH by (intros f Hf; apply H; by right).
  rewrite Hfs. apply lookup_delete_ne. apply H. by left.
Qed.

(** C8.  The scratch file of the synthesis handler is named by the
    temporary-file generator: ["tmp"], a random name, [".mp3"], in the
    scratch directory.  The shutdown sweep visits the names of that directory
    that match ["output_*.mp3"]; no name of the generator matches it, so
    whatever the filesystem holds at shutdown the sweep leaves a file created
    by the handler as it is.  On the run below the file is created by the
    handler, is present at shutdown, and is still present after the sweep. *)
Theorem tts_file_survives_sweep :
  (∀ name, PyStr.fnmatch "output_*.mp3" ("tmp" +:+ name +:+ ".mp3") = false)
  ∧ (∀ cwd names w output_path w1 at_shutdown,
       NamedTemporaryFile cwd ".mp3" "temp_audio" names w = (Ok output_path, w1) →
       fs (snd (cleanup_temp_files cwd at_shutdown)) !! output_path
       = fs at_shutdown !! output_path)
  ∧ fs Scenario.empty_world !! "/app/temp_audio/tmpk3v9x_q2.mp3" = None
  ∧ fst (text_to_speech Scenario.cfg Scenario.cwd Scenario.synthesizes
           "hello" "en" ["k3v9x_q2"] Scenario.empty_world)
    = Ok (RFile "/app/temp_audio/tmpk3v9x_q2.mp3" "audio/mpeg"
                "output_tmpk3v9x_q2.mp3")
  ∧ fs (snd (text_to_speech Scenario.cfg Scenario.cwd Scenario.synthesizes
               "hello" "en" ["k3v9x_q2"] Scenario.empty_world))
      !! "/app/temp_audio/tmpk3v9x_q2.mp3" = Some Scenario.mp3
  ∧ fs (snd (cleanup_temp_files Scenario.cwd
               (snd (text_to_speech Scenario.cfg Scenario.cwd Scenario.synthesizes
                       "hello" "en" ["k3v9x_q2"] Scenario.empty_world))))
      !! "/app/temp_audio/tmpk3v9x_q2.mp3" = Some Scenario.mp3.
Proof.
  split; [|split].
  - intros name. reflexivity.
  - intros cwd names w output_path w1 at_shutdown H.
    destruct (mkstemp_inner_ok _ _ _ _ _ _ _ _ H) as (_ & _ & name & _ & ->).
    unfold cleanup_temp_files. unfold mbind at 1. unfold M_bind.
    destruct (glob_glob cwd "temp_audio/output_*.mp3" at_shutdown)
      as [[files|e] w3] eqn:G.
    + assert (fs w3 = fs at_shutdown) as <-.
      { unfold glob_glob, mbind, M_bind, os_listdir, mret, M_ret in G.
        by injection G as _ <-. }
      apply sweep_other. intros file Hin.
      destruct (glob_output_files _ _ _ _ G file Hin) as (n & -> & Hn).
      unfold PyStr.abspath at 2. simpl PyStr.startswith. cbv iota.
      rewrite join_file, join_dir. intros Heq.
      apply String.app_inj, String.app_inj in Heq. subst n. done.
    + unfold glob_glob, mbind, M_bind, os_listdir, mret, M_ret in G. discriminate.
  - repeat split; vm_compute; reflexivity.
Qed.

(** ** The translation handler *)

Section Translation.

Variable cfg : config.
Variable net : provider.
Variable text source_language target_language : string.

Let request := translate_request cfg text source_language target_language.

(** The handler sends its one request and touches nothing else. *)
Lemma translate_text_world w :
  snd (translate_text cfg net text source_language target_language w)
  = emit (EvRequest request) w.
Proof.
  unfold translate_text, try_except, mbind, M_bind, requests_send.
  fold request.
  destruct (net (length (sent (trace w))) request) as [resp|msg]; [|done].
  unfold raise_for_status, response_json, lift, raise, mret, M_ret.
  repeat (case_match; simplify_eq/=; try done).
Qed.

(** What the handler returns is decided by the provider's answer alone. *)
Lemma translate_text_result w w' :
  net (length (sent (trace w))) request = net (length (sent (trace w'))) request →
  fst (translate_text cfg net text source_language target_language w)
  = fst (translate_text cfg net text source_language target_language w').
Proof.
  intros Hnet.
  unfold translate_text, try_except, mbind, M_bind, requests_send.
  fold request. rewrite Hnet.
  destruct (net (length (sent (trace w'))) request) as [resp|msg]; [|done].
  unfold raise_for_status, response_json, lift, raise, mret, M_ret.
  repeat (case_match; simplify_eq/=; try done).
Qed.

End Translation.

(** C7.  Against a provider that answers equal requests alike, two calls of
    the translation handler in a row with the same text, source and target
    return the same result; neither call changes the scratch filesystem, the
    only state of the service, and each sends the one, same request. *)
Theorem translate_idempotent cfg net text source_language target_language w :
  (∀ n m r, net n r = net m r) →
  fst (translate_text cfg net text source_language target_language
         (snd (translate_text cfg net text source_language target_language w)))
  = fst (translate_text cfg net text source_language target_language w)
  ∧ fs (snd (translate_text cfg net text source_language target_language w)) = fs w
  ∧ fs (snd (translate_text cfg net text source_language target_language
               (snd (translate_text cfg net text source_language target_language w))))
    = fs w
  ∧ trace (snd (translate_text cfg net text source_language target_language
                  (snd (translate_text cfg net text source_language target_language w))))
    = trace w
      ++ [EvRequest (translate_request cfg text source_language target_language);
          EvRequest (translate_request cfg text source_language target_language)].
Proof.
  intros Hstub. split; [|split; [|split]].
  - apply translate_text_result, Hstub.
  - by rewrite translate_text_world.
  - by rewrite !translate_text_world.
  - rewrite !translate_text_world. simpl. by rewrite <- app_assoc.
Qed.

Lemma translate_idempotent_witness :
  fst (translate_text Scenario.cfg Scenario.translates "hola" "es" "en"
         (snd (translate_text Scenario.cfg Scenario.translates "hola" "es" "en"
                 Scenario.empty_world)))
  = Ok (RJson (JObj [("translated_text", JStr "hello")]))
  ∧ fst (translate_text Scenario.cfg Scenario.translates "hola" "es" "en"
           Scenario.empty_world)
    = Ok (RJson (JObj [("translated_text", JStr "hello")])).
Proof.
  pose proof (translate_idempotent Scenario.cfg Scenario.translates "hola" "es" "en"
                Scenario.empty_world) as H.
  destruct H as (H & _).
  - reflexivity.
  - rewrite H. split; reflexivity.
Defined.

(** ** The realtime-token handler *)

Lemma truthy_slice x n :
  truthy x = true → ∃ s, slice_prefix x n = Ok s.
Proof. destruct x as [s|]; [|done]. intros _. by eexists. Qed.

Section Token.

Variable cfg : config.
Variable net : provider.
Variable w : world.
Variable t r : response.

Hypothesis Hkey : truthy (ASSEMBLYAI_API_KEY cfg) = true.
Hypothesis Htest : net (length (sent (trace w))) (key_test_request cfg) = Responded t.
Hypothesis Hpassed : status_code t ≠ 401.
Hypothesis Htoken : net (S (length (sent (trace w)))) (token_request cfg) = Responded r.

(** The world in which the token endpoint has answered. *)
Let answered : world :=
  emit (EvRequest (token_request cfg)) (emit (EvRequest (key_test_request cfg)) w).

(** The handler past the key test, at the inspection of the token
    response: [rest] stands for the statements that follow the request. *)
Lemma token_requested (rest : response → M retval) :
  ((if negb (truthy (ASSEMBLYAI_API_KEY cfg)) then raise (PyException msg_key_missing)
    else mret ());;
   _ ← lift (slice_prefix (ASSEMBLYAI_API_KEY cfg) 8);
   test_response ← requests_send net (key_test_request cfg);
   (if status_code test_response =? 401 then raise (PyException msg_key_test_failed)
    else mret ());;
   response ← requests_send net (token_request cfg);
   rest response) w
  = rest r answered.
Proof.
  rewrite Hkey. simpl negb. cbv iota.
  erewrite bind_ok; last reflexivity.
  destruct (truthy_slice _ 8 Hkey) as [s Hs].
  erewrite bind_ok; last by (unfold lift; rewrite Hs).
  erewrite bind_ok; last by (unfold requests_send; rewrite Htest).
  apply Z.eqb_neq in Hpassed. rewrite Hpassed.
  erewrite bind_ok; last reflexivity.
  erewrite bind_ok; last first.
  { unfold requests_send. rewrite sent_emit_request, length_app. simpl.
    rewrite Nat.add_1_r. by rewrite Htoken. }
  reflexivity.
Qed.

(** A status that the handler refuses ends it with the message chosen for
    that status, behind the prefix of the catch-all clause. *)
Lemma token_refused :
  status_code r ≠ 200 →
  fst (get_realtime_token cfg net w)
  = Raise (HTTPException 500
             ("Failed to create Universal Streaming token: " +:+
              (if status_code r =? 401 then msg_unauthorized
               else if status_code r =? 403 then msg_forbidden
               else if status_code r =? 404 then msg_not_found
               else msg_other r))).
Proof.
  intros H200. apply Z.eqb_neq in H200.
  unfold get_realtime_token, try_except.
  rewrite token_requested.
  destruct (status_code r =? 401) eqn:E1; [reflexivity|].
  destruct (status_code r =? 403) eqn:E3; [reflexivity|].
  destruct (status_code r =? 404) eqn:E4; [reflexivity|].
  rewrite H200. reflexivity.
Qed.

(** A 200 answer whose body is an object with a token. *)
Lemma token_issued token :
  status_code r = 200 →
  field r "token" = Some token →
  fst (get_realtime_token cfg net w)
  = Ok (RJson (JObj
          [("token", token);
           ("api_host", JStr "streaming.assemblyai.com");
           ("websocket_url",
            JStr ("wss://streaming.assemblyai.com/v3/streaming?token="
                  +:+ py_str token))])).
Proof.
  intros H200 Hf.
  unfold get_realtime_token, try_except at 1.
  rewrite token_requested. rewrite H200. simpl Z.eqb. cbv iota. simpl negb. cbv iota.
  erewrite bind_ok; last reflexivity.
  unfold field in Hf. unfold try_except, response_json.
  destruct (json_body r) as [[| | | | |fields]|]; try done.
  erewrite bind_ok; last reflexivity.
  erewrite bind_ok; last by (unfold lift, contains_str; rewrite Hf).
  rewrite bool_decide_eq_true_2 by eauto. simpl negb. cbv iota.
  erewrite bind_ok; last reflexivity.
  erewrite !bind_ok; [reflexivity | |]; by (unfold lift; simpl; rewrite Hf).
Qed.

End Token.

(** The detail of a realtime-token failure reported by the catch-all
    clause. *)
Lemma token_failure_inj msg msg' :
  Failure 500 ("Failed to create Universal Streaming token: " +:+ msg)
  = Failure 500 ("Failed to create Universal Streaming token: " +:+ msg') →
  msg = msg'.
Proof. intros H. injection H as H. exact H. Qed.

(** C9.  With a configured key that passes the test call, the answer of the
    token endpoint decides the outcome: 401, 403, 404 and any other status
    than 200 each give status 500 with their own message, and the four
    details are pairwise different whatever the response; a 200 answer with a
    token gives the token, the fixed host and the websocket URL that ends
    with the token. *)
Theorem realtime_token_outcomes cfg net w t r :
  truthy (ASSEMBLYAI_API_KEY cfg) = true →
  net (length (sent (trace w))) (key_test_request cfg) = Responded t →
  status_code t ≠ 401 →
  net (S (length (sent (trace w)))) (token_request cfg) = Responded r →
  let failure := λ msg,
    Failure 500 ("Failed to create Universal Streaming token: " +:+ msg) in
  (status_code r = 401 →
   serve (fst (get_realtime_token cfg net w)) = failure msg_unauthorized)
  ∧ (status_code r = 403 →
     serve (fst (get_realtime_token cfg net w)) = failure msg_forbidden)
  ∧ (status_code r = 404 →
     serve (fst (get_realtime_token cfg net w)) = failure msg_not_found)
  ∧ (status_code r ≠ 200 → status_code r ≠ 401 → status_code r ≠ 403 →
     status_code r ≠ 404 →
     serve (fst (get_realtime_token cfg net w)) = failure (msg_other r))
  ∧ (failure msg_unauthorized ≠ failure msg_forbidden
     ∧ failure msg_unauthorized ≠ failure msg_not_found
     ∧ failure msg_forbidden ≠ failure msg_not_found
     ∧ ∀ r', failure (msg_other r') ≠ failure msg_unauthorized
             ∧ failure (msg_other r') ≠ failure msg_forbidden
             ∧ failure (msg_other r') ≠ failure msg_not_found)
  ∧ (status_code r = 200 → ∀ token, field r "token" = Some token →
     serve (fst (get_realtime_token cfg net w))
     = Success (RJson (JObj
         [("token", token);
          ("api_host", JStr "streaming.assemblyai.com");
          ("websocket_url",
           JStr ("wss://streaming.assemblyai.com/v3/streaming?token="
                 +:+ py_str token))]))).
Proof.
  intros Hkey Htest Hpassed Htoken failure.
  pose proof (token_refused cfg net w t r Hkey Htest Hpassed Htoken) as Hrefused.
  repeat apply conj.
  - intros H. rewrite Hrefused by lia. by rewrite H.
  - intros H. rewrite Hrefused by lia. by rewrite H.
  - intros H. rewrite Hrefused by lia. by rewrite H.
  - intros H200 H401 H403 H404. rewrite Hrefused by done.
    apply Z.eqb_neq in H401, H403, H404. by rewrite H401, H403, H404.
  - intros H. apply token_failure_inj in H. discriminate.
  - intros H. apply token_failure_inj in H. discriminate.
  - intros H. apply token_failure_inj in H. discriminate.
  - intros r'. unfold msg_other.
    repeat apply conj; intros H; apply token_failure_inj in H; discriminate.
  - intros H200 token Hf.
    by rewrite (token_issued cfg net w t r Hkey Htest Hpassed Htoken token H200 Hf).
Qed.

Lemma realtime_token_outcomes_witness :
  serve (fst (get_realtime_token Scenario.cfg Scenario.streaming_forbidden
                Scenario.empty_world))
  = Failure 500 ("Failed to create Universal Streaming token: " +:+ msg_forbidden).
Proof.
  pose proof (realtime_token_outcomes Scenario.cfg Scenario.streaming_forbidden
                Scenario.empty_world
                (Scenario.answer 200 "" (Some (JObj [("transcripts", JArr [])])))
                (Scenario.answer 403 "Forbidden" None)) as H.
  destruct H as (_ & H & _).
  - reflexivity.
  - reflexivity.
  - discriminate.
  - reflexivity.
  - apply H. reflexivity.
Defined.

(** * Further properties of the handlers *)

(** ** Bounds on the effects *)

Lemma bind_raise {A B} (m : M A) (f : A → M B) w e w' :
  m w = (Raise e, w') → (m ≫= f) w = (Raise e, w').
Proof. intros H. unfold mbind, M_bind. by rewrite H. Qed.

Lemma slept_app tr1 tr2 : slept (tr1 ++ tr2) = slept tr1 + slept tr2.
Proof.
  induction tr1 as [|ev tr1 IH]; [done|].
  simpl. destruct ev; rewrite ?IH; lia.
Qed.

Lemma slept_pending_polls status k : slept (pending_polls status k) = 3 * Z.of_nat k.
Proof.
  unfold pending_polls. induction k as [|k IH]; [done|].
  simpl replicate. simpl concat. change (slept ([EvRequest status; EvSleep 3] ++ concat (replicate k [EvRequest status; EvSleep 3])) = 3 * Z.of_nat (S k)).
  rewrite slept_app, IH. simpl. lia.
Qed.

Section Effects.

Context {A B : Type}.

Lemma effects_silent (r : result A) : effects 0 0 (lift r).
Proof. intros w. exists []. simpl. rewrite app_nil_r. repeat split; lia. Qed.

Lemma effects_ret (a : A) : effects 0 0 (mret a : M A).
Proof. exact (effects_silent (Ok a)). Qed.

Lemma effects_raise (e : exn) : effects 0 0 (raise e : M A).
Proof. exact (effects_silent (Raise e)). Qed.

Lemma effects_weaken r s r' s' (m : M A) :
  effects r s m → (r ≤ r')%nat → s ≤ s' → effects r' s' m.
Proof.
  intros H Hr Hs w. destruct (H w) as (tr & H1 & H2 & H3 & H4).
  exists tr. repeat split; (done || lia).
Qed.

Lemma effects_bind r1 s1 r2 s2 (m : M A) (f : A → M B) :
  0 ≤ s2 →
  effects r1 s1 m → (∀ a, effects r2 s2 (f a)) →
  effects (r1 + r2) (s1 + s2) (m ≫= f).
Proof.
  intros Hs2 Hm Hf w. unfold mbind, M_bind.
  destruct (Hm w) as (tr & H1 & H2 & H3 & H4).
  destruct (m w) as [[a|e] w1]; simpl in *.
  - destruct (Hf a w1) as (tr' & H1' & H2' & H3' & H4').
    exists (tr ++ tr'). rewrite H1', H1, H2', H2, sent_app, length_app, slept_app.
    rewrite <- app_assoc. repeat split; (done || lia).
  - exists tr. repeat split; (done || lia).
Qed.

(** A handler clause that only raises adds no effect. *)
Lemma effects_try_except r s (m : M A) (catches : exn → bool) (h : exn → M A) :
  effects r s m → (∀ e, effects 0 0 (h e)) →
  effects r s (try_except m [(catches, h)]).
Proof.
  intros Hm Hh w. unfold try_except.
  destruct (Hm w) as (tr & H1 & H2 & H3 & H4).
  destruct (m w) as [[a|e] w1]; simpl in *.
  - exists tr. done.
  - destruct (catches e).
    + destruct (Hh e w1) as (tr' & H1' & H2' & H3' & H4').
      exists (tr ++ tr'). rewrite H1', H1, H2', H2, sent_app, length_app, slept_app.
      rewrite <- app_assoc. repeat split; (done || lia).
    + exists tr. done.
Qed.

End Effects.

Lemma effects_requests_send net r : effects 1 0 (requests_send net r).
Proof.
  intros w. unfold requests_send. exists [EvRequest r].
  destruct (net _ r); simpl; repeat split; lia.
Qed.

Lemma effects_raise_for_status r : effects 0 0 (raise_for_status r).
Proof.
  unfold raise_for_status.
  repeat case_match; (apply effects_raise || apply effects_ret).
Qed.

Lemma effects_response_json r : effects 0 0 (response_json r).
Proof.
  unfold response_json. case_match; (apply effects_raise || apply effects_ret).
Qed.

Lemma effects_open_read cwd path : effects 0 0 (open_read cwd path).
Proof.
  intros w. unfold open_read. exists []. rewrite app_nil_r.
  case_match; simpl; repeat split; lia.
Qed.

Lemma effects_time_sleep : effects 0 3 (time_sleep 3).
Proof. intros w. exists [EvSleep 3]. simpl. repeat split; lia. Qed.

(** Steps without requests or sleeps in front of a program. *)
Lemma effects_then {A B} r s (m : M A) (f : A → M B) :
  0 ≤ s → effects 0 0 m → (∀ a, effects r s (f a)) → effects r s (m ≫= f).
Proof.
  intros Hs Hm Hf.
  apply (effects_weaken (0 + r) (0 + s)); [|lia|lia].
  by apply effects_bind.
Qed.

(** The polling loop with [n] attempts left sends at most [n] requests and
    sleeps at most [3 n] seconds. *)
Lemma effects_poll net n headers transcript_id :
  effects n (3 * Z.of_nat n) (poll net n headers transcript_id).
Proof.
  induction n as [|n IH].
  - apply effects_raise.
  - cbn [poll].
    apply (effects_weaken (1 + n) (0 + 3 * Z.of_nat (S n))); [|lia|lia].
    apply effects_bind; [lia | apply effects_requests_send | intros result].
    apply effects_then; [lia | apply effects_raise_for_status | intros _].
    apply effects_then; [lia | apply effects_response_json | intros j].
    apply effects_then; [lia | apply effects_silent | intros status].
    destruct (eq_str status "completed").
    { apply (effects_weaken 0 0); [|lia|lia].
      repeat first
        [ apply effects_ret | apply effects_response_json | apply effects_silent
        | apply effects_then; [lia| |intros ?] ]. }
    destruct (eq_str status "error").
    { apply (effects_weaken 0 0); [|lia|lia].
      repeat first
        [ apply effects_raise | apply effects_response_json | apply effects_silent
        | apply effects_then; [lia| |intros ?] ]. }
    apply (effects_weaken (0 + n) (3 + 3 * Z.of_nat n)); [|lia|lia].
    apply effects_bind; [lia | apply effects_time_sleep | intros _; exact IH].
Qed.

(** ** The path of the scratch input file *)

(** [rfind_from] returns its default when the character does not occur, and
    otherwise the position of the last occurrence. *)
Lemma rfind_from_spec c s : ∀ i best,
  best < i →
  (PyStr.rfind_from c s i best = best ∧ ∀ n, String.get n s ≠ Some c)
  ∨ (i ≤ PyStr.rfind_from c s i best < i + Z.of_nat (String.length s)
     ∧ String.get (Z.to_nat (PyStr.rfind_from c s i best - i)) s = Some c
     ∧ ∀ n, (Z.to_nat (PyStr.rfind_from c s i best - i) < n)%nat →
            String.get n s ≠ Some c).
Proof.
  induction s as [|d s IH]; intros i best Hlt.
  - left. split; [done|]. intros n. by destruct n.
  - cbn [PyStr.rfind_from].
    set (best' := if Ascii.eqb c d then i else best).
    assert (Hlt' : best' < i + 1) by (unfold best'; destruct (Ascii.eqb c d); lia).
    destruct (IH (i + 1) best' Hlt') as [[Hr Hnone] | (Hr & Hget & Hlater)].
    + rewrite Hr. unfold best'. destruct (Ascii.eqb c d) eqn:E.
      * apply Ascii.eqb_eq in E as <-. right.
        simpl String.length. split; [lia|].
        replace (i - i) with 0 by lia. split; [done|].
        intros [|n] Hn; [simpl in Hn; lia | apply Hnone].
      * apply Ascii.eqb_neq in E. left. split; [done|].
        intros [|n]; [simpl; congruence | apply Hnone].
    + right. simpl String.length. split; [lia|].
      replace (Z.to_nat (PyStr.rfind_from c s (i + 1) best' - i))
        with (S (Z.to_nat (PyStr.rfind_from c s (i + 1) best' - (i + 1)))) by lia.
      split; [exact Hget|].
      intros [|n] Hn; [lia | apply Hlater; lia].
Qed.

Lemma get_lower n s :
  String.get n (PyStr.lower s) = PyStr.lower_ascii <$> String.get n s.
Proof.
  revert n. induction s as [|c s IH]; intros n; [done|].
  destruct n as [|n]; [done | apply IH].
Qed.

Lemma lower_ascii_slash c : PyStr.lower_ascii c = "/"%char → c = "/"%char.
Proof.
  destruct c as [[] [] [] [] [] [] [] []]; vm_compute; congruence.
Qed.

Lemma no_slash s :
  (∀ n, String.get n s ≠ Some "/"%char) → PyStr.contains s "/" = false.
Proof.
  induction s as [|c s IH]; intros H; [done|].
  cbn [PyStr.contains String.prefix].
  destruct (ascii_dec "/"%char c) as [<-|_].
  - by destruct (H 0%nat).
  - apply IH. intros n. apply (H (S n)).
Qed.

Lemma starts_with_dot s :
  String.get 0 s = Some "."%char → PyStr.startswith s "." = true.
Proof.
  destruct s as [|c s]; [done|]. intros [= ->].
  unfold PyStr.startswith. cbn [String.prefix].
  destruct (ascii_dec "."%char "."%char); [by destruct s | done].
Qed.

(** The extension [os.path.splitext] splits off is empty, or starts at a dot
    and holds no path separator. *)
Lemma splitext_extension p :
  snd (PyStr.splitext p) = ""
  ∨ (String.get 0 (snd (PyStr.splitext p)) = Some "."%char
     ∧ ∀ n, String.get n (snd (PyStr.splitext p)) ≠ Some "/"%char).
Proof.
  unfold PyStr.splitext.
  destruct (_ && _) eqn:E; [|by left].
  right. apply andb_prop in E as [E _]. apply Z.ltb_lt in E.
  cbn [snd]. unfold PyStr.rfind in *.
  destruct (rfind_from_spec "/" p 0 (-1)) as [[Hs Hnone] | (Hs & Hsget & Hlater)];
    [lia | |];
  (destruct (rfind_from_spec "." p 0 (-1)) as [[Hd _] | (Hd & Hdget & _)];
    [lia | lia |]);
  rewrite Z.sub_0_r in *; unfold PyStr.drop.
  - split.
    + rewrite substring_correct1 by lia. exact Hdget.
    + intros n.
      destruct (decide (n < String.length p - Z.to_nat (PyStr.rfind_from "." p 0 (-1))))%nat.
      * rewrite substring_correct1 by lia. apply Hnone.
      * rewrite substring_correct2 by lia. done.
  - split.
    + rewrite substring_correct1 by lia. exact Hdget.
    + intros n.
      destruct (decide (n < String.length p - Z.to_nat (PyStr.rfind_from "." p 0 (-1))))%nat.
      * rewrite substring_correct1 by lia. apply Hlater. lia.
      * rewrite substring_correct2 by lia. done.
Qed.

(** Whatever the name of the uploaded file, the scratch path is
    ["temp_audio/input_"], the UUID and an extension; the extension starts
    with a dot and holds no path separator, so the file name decides nothing
    of the location but the extension, and it is [".mp3"] when the name has
    none. *)
Theorem input_path_shape audio unique_id :
  ∃ ext,
    input_path_of audio unique_id = "temp_audio/input_" +:+ unique_id +:+ ext
    ∧ PyStr.startswith ext "." = true
    ∧ PyStr.contains ext "/" = false
    ∧ (snd (PyStr.splitext (filename audio)) = "" → ext = ".mp3").
Proof.
  unfold input_path_of.
  destruct (splitext_extension (filename audio)) as [-> | [Hdot Hslash]].
  - exists ".mp3". done.
  - set (ext := snd (PyStr.splitext (filename audio))) in *.
    assert (Hget : String.get 0 (PyStr.lower ext) = Some "."%char)
      by (by rewrite get_lower, Hdot).
    exists (PyStr.lower ext).
    assert (PyStr.or_else (PyStr.lower ext) ".mp3" = PyStr.lower ext) as ->
      by (by destruct (PyStr.lower ext)).
    split; [done|]. split; [by apply starts_with_dot|]. split.
    + apply no_slash. intros n. rewrite get_lower.
      destruct (String.get n ext) as [c|] eqn:E; [|done].
      simpl. intros [= H]. apply lower_ascii_slash in H as ->.
      by apply (Hslash n).
    + intros H. rewrite H in Hdot. done.
Qed.

(** ** The transcription handler: failures, bounds and files *)

Lemma raise_for_status_fails r :
  succeeded r = false →
  ∃ msg, ∀ w, raise_for_status r w = (Raise (HTTPError msg), w).
Proof.
  unfold succeeded, raise_for_status. intros H.
  apply negb_false_iff, andb_prop in H as [H4 H6].
  destruct ((400 <=? status_code r) && (status_code r <? 500)) eqn:E4.
  - eexists. intros w. reflexivity.
  - rewrite H6. assert ((500 <=? status_code r) = true) as ->.
    { rewrite H4 in E4. simpl in E4. lia. }
    eexists. intros w. reflexivity.
Qed.

Section TranscribeFailures.

Variable cfg : config.
Variable cwd : string.
Variable net : provider.
Variable audio : UploadFile.
Variable unique_id : string.
Variable w : world.

Let input_path := input_path_of audio unique_id.
Let scratch := PyStr.abspath cwd input_path.
Let upload := upload_request (aai_headers cfg) (data audio).

(** The world after the scratch file is written. *)
Let written : world :=
  {| fs := <[scratch := data audio]> (fs w);
     trace := trace w ++ [EvWrite input_path (data audio)] |}.

(** The [finally] block in detail: it returns, removes the file if it is
    there, and neither sends nor sleeps. *)
Lemma remove_if_exists_trace path w0 :
  ∃ tr, remove_if_exists cwd path w0
        = (Ok (), {| fs := delete (PyStr.abspath cwd path) (fs w0);
                     trace := trace w0 ++ tr |})
        ∧ sent tr = [] ∧ slept tr = 0.
Proof.
  unfold remove_if_exists, os_path_exists, os_remove, mbind, M_bind.
  destruct (fs w0 !! PyStr.abspath cwd path) as [d|] eqn:E.
  - rewrite bool_decide_eq_true_2 by eauto. rewrite E.
    by exists [EvRemove path].
  - rewrite bool_decide_eq_false_2 by (intros [? ?]; congruence).
    exists []. rewrite app_nil_r, delete_id by done. by destruct w0.
Qed.

(** The handler around its guarded block, with the effects of the
    [finally] block. *)
Lemma handler_around_job r w1 :
  is_audio audio = true →
  transcribe_job cfg cwd net audio input_path w = (r, w1) →
  ∃ tr,
    transcribe_audio cfg cwd net audio unique_id w
    = (match r with
       | Ok v => Ok v
       | Raise e => Raise (HTTPException 500 (str_exn e))
       end,
       {| fs := delete scratch (fs w1); trace := trace w1 ++ tr |})
    ∧ sent tr = [] ∧ slept tr = 0.
Proof.
  intros Haudio Hjob.
  rewrite transcribe_audio_guarded by done.
  unfold try_finally, try_except. fold input_path. rewrite Hjob.
  destruct r as [v|e]; simpl.
  - destruct (remove_if_exists_trace input_path w1) as (tr & -> & Hs & Hz).
    by exists tr.
  - destruct (remove_if_exists_trace input_path w1) as (tr & -> & Hs & Hz).
    by exists tr.
Qed.

(** The guarded block past the write of the scratch file and the look at
    the key: [rest] stands for the statements from the upload on. *)
Lemma job_uploading :
  is_Some (ASSEMBLYAI_API_KEY cfg) →
  transcribe_job cfg cwd net audio input_path w
  = (response ← requests_send net upload;
     raise_for_status response;;
     j ← response_json response;
     audio_url ← lift (getitem_str j "upload_url");
     transcribe_response ← requests_send net (submit_request (aai_headers cfg) audio_url);
     raise_for_status transcribe_response;;
     j ← response_json transcribe_response;
     transcript_id ← lift (getitem_str j "id");
     poll net 30 (aai_headers cfg) transcript_id) written.
Proof.
  intros [key Hkey]. unfold transcribe_job. fold (aai_headers cfg).
  erewrite bind_ok; last reflexivity.
  erewrite bind_ok; last by (unfold lift; rewrite Hkey).
  erewrite bind_ok; last by (unfold open_read; simpl; rewrite lookup_insert_eq).
  reflexivity.
Qed.

Lemma sent_written : sent (trace written) = sent (trace w).
Proof. unfold written. simpl. rewrite sent_app. simpl. by rewrite app_nil_r. Qed.

End TranscribeFailures.

(** An upload that the provider answers with an error status: the handler
    gives up with a 500 whose detail is the message of [raise_for_status];
    the upload is the only request sent. *)
Theorem transcribe_upload_rejected cfg cwd net audio unique_id w up :
  is_audio audio = true →
  is_Some (ASSEMBLYAI_API_KEY cfg) →
  net (length (sent (trace w))) (upload_request (aai_headers cfg) (data audio))
  = Responded up →
  succeeded up = false →
  ∃ msg,
    fst (raise_for_status up w) = Raise (HTTPError msg)
    ∧ serve (fst (transcribe_audio cfg cwd net audio unique_id w)) = Failure 500 msg
    ∧ sent (trace (snd (transcribe_audio cfg cwd net audio unique_id w)))
      = sent (trace w) ++ [upload_request (aai_headers cfg) (data audio)].
Proof.
  intros Haudio Hkey Hup Hfail.
  destruct (raise_for_status_fails up Hfail) as [msg Hmsg].
  exists msg. split; [by rewrite Hmsg|].
  edestruct (handler_around_job cfg cwd net audio unique_id w) as (tr & -> & Hs & _);
    [exact Haudio | |].
  { rewrite job_uploading by done.
    erewrite bind_ok; last first.
    { unfold requests_send. rewrite sent_written. by rewrite Hup. }
    erewrite bind_raise; last apply Hmsg. reflexivity. }
  simpl. split; [done|].
  rewrite !sent_app, Hs. simpl. by rewrite !app_nil_r.
Qed.

(** The transport fails on the upload: a 500 with the transport's message,
    and no further request. *)
Theorem transcribe_upload_unreachable cfg cwd net audio unique_id w msg :
  is_audio audio = true →
  is_Some (ASSEMBLYAI_API_KEY cfg) →
  net (length (sent (trace w))) (upload_request (aai_headers cfg) (data audio))
  = Failed msg →
  serve (fst (transcribe_audio cfg cwd net audio unique_id w)) = Failure 500 msg
  ∧ sent (trace (snd (transcribe_audio cfg cwd net audio unique_id w)))
    = sent (trace w) ++ [upload_request (aai_headers cfg) (data audio)].
Proof.
  intros Haudio Hkey Hup.
  edestruct (handler_around_job cfg cwd net audio unique_id w) as (tr & -> & Hs & _);
    [exact Haudio | |].
  { rewrite job_uploading by done.
    erewrite bind_raise; [reflexivity|].
    unfold requests_send. rewrite sent_written. by rewrite Hup. }
  simpl. split; [done|].
  rewrite !sent_app, Hs. simpl. by rewrite !app_nil_r.
Qed.

(** The submission is answered with an error status: a 500 with the message
    of [raise_for_status]; two requests were sent and the job is never
    polled. *)
Theorem transcribe_submit_rejected cfg cwd net audio unique_id w up audio_url sub :
  is_audio audio = true →
  is_Some (ASSEMBLYAI_API_KEY cfg) →
  net (length (sent (trace w))) (upload_request (aai_headers cfg) (data audio))
  = Responded up →
  succeeded up = true →
  field up "upload_url" = Some audio_url →
  net (S (length (sent (trace w)))) (submit_request (aai_headers cfg) audio_url)
  = Responded sub →
  succeeded sub = false →
  ∃ msg,
    fst (raise_for_status sub w) = Raise (HTTPError msg)
    ∧ serve (fst (transcribe_audio cfg cwd net audio unique_id w)) = Failure 500 msg
    ∧ sent (trace (snd (transcribe_audio cfg cwd net audio unique_id w)))
      = sent (trace w) ++ [upload_request (aai_headers cfg) (data audio);
                           submit_request (aai_headers cfg) audio_url].
Proof.
  intros Haudio Hkey Hup Hups Hupf Hsub Hfail.
  destruct (raise_for_status_fails sub Hfail) as [msg Hmsg].
  exists msg. split; [by rewrite Hmsg|].
  edestruct (handler_around_job cfg cwd net audio unique_id w) as (tr & -> & Hs & _);
    [exact Haudio | |].
  { rewrite job_uploading by done.
    erewrite bind_ok; last first.
    { unfold requests_send. rewrite sent_written. by rewrite Hup. }
    erewrite bind_ok; last by apply succeeded_passes.
    edestruct (field_read up "upload_url") as (j & Hj & Hg); [exact Hupf|].
    erewrite bind_ok; last exact Hj.
    erewrite bind_ok; last by (unfold lift; rewrite Hg).
    erewrite bind_ok; last first.
    { unfold requests_send. rewrite sent_emit_request, sent_written, length_app.
      simpl. rewrite Nat.add_1_r. by rewrite Hsub. }
    erewrite bind_raise; last apply Hmsg. reflexivity. }
  simpl. split; [done|].
  rewrite !sent_app, Hs. simpl. rewrite !app_nil_r. by rewrite <- app_assoc.
Qed.

(** Without a transcription key the handler fails before any request: the
    scratch file is written and removed again, and the client gets a 500 with
    the text of the type error. *)
Theorem transcribe_key_missing cfg cwd net audio unique_id w :
  is_audio audio = true →
  ASSEMBLYAI_API_KEY cfg = None →
  serve (fst (transcribe_audio cfg cwd net audio unique_id w))
  = Failure 500 "'NoneType' object is not subscriptable"
  ∧ trace (snd (transcribe_audio cfg cwd net audio unique_id w))
    = trace w ++ [EvWrite (input_path_of audio unique_id) (data audio);
                  EvRemove (input_path_of audio unique_id)]
  ∧ fs (snd (transcribe_audio cfg cwd net audio unique_id w))
    = delete (PyStr.abspath cwd (input_path_of audio unique_id)) (fs w).
Proof.
  intros Haudio Hkey.
  rewrite transcribe_audio_guarded by done.
  unfold try_finally, try_except, transcribe_job.
  erewrite bind_ok; last reflexivity.
  erewrite bind_raise; last by (unfold lift; rewrite Hkey).
  simpl. unfold remove_if_exists, os_path_exists, os_remove, mbind, M_bind. simpl.
  rewrite !lookup_insert_eq. rewrite bool_decide_eq_true_2 by eauto. simpl.
  rewrite ?lookup_insert_eq. simpl.
  split; [done|]. split; [by rewrite <- app_assoc|].
  apply delete_insert_eq.
Qed.

Lemma transcribe_upload_rejected_witness :
  serve (fst (transcribe_audio Scenario.cfg Scenario.cwd Cases.refuses_upload
                Scenario.wav "u-1" Scenario.empty_world))
  = Failure 500
      "401 Client Error: Unauthorized for url: https://api.assemblyai.com/v2/upload"
  ∧ length (sent (trace (snd (transcribe_audio Scenario.cfg Scenario.cwd
                                Cases.refuses_upload Scenario.wav "u-1"
                                Scenario.empty_world)))) = 1%nat.
Proof.
  destruct (transcribe_upload_rejected Scenario.cfg Scenario.cwd Cases.refuses_upload
              Scenario.wav "u-1" Scenario.empty_world Cases.unauthorized)
    as (msg & Hmsg & H1 & H2).
  - reflexivity.
  - eexists; reflexivity.
  - reflexivity.
  - reflexivity.
  - injection Hmsg as <-. split; [exact H1|]. rewrite H2. reflexivity.
Defined.

Lemma transcribe_upload_unreachable_witness :
  serve (fst (transcribe_audio Scenario.cfg Scenario.cwd Cases.unreachable
                Scenario.wav "u-1" Scenario.empty_world))
  = Failure 500 "Connection refused".
Proof.
  destruct (transcribe_upload_unreachable Scenario.cfg Scenario.cwd Cases.unreachable
              Scenario.wav "u-1" Scenario.empty_world "Connection refused")
    as (H1 & _).
  - reflexivity.
  - eexists; reflexivity.
  - reflexivity.
  - exact H1.
Defined.

Lemma transcribe_submit_rejected_witness :
  length (sent (trace (snd (transcribe_audio Scenario.cfg Scenario.cwd
                              Cases.refuses_submit Scenario.wav "u-1"
                              Scenario.empty_world)))) = 2%nat.
Proof.
  destruct (transcribe_submit_rejected Scenario.cfg Scenario.cwd Cases.refuses_submit
              Scenario.wav "u-1" Scenario.empty_world Scenario.uploaded
              (JStr "https://cdn.example/u1") Cases.unauthorized)
    as (msg & _ & _ & H2).
  - reflexivity.
  - eexists; reflexivity.
  - reflexivity.
  - reflexivity.
  - reflexivity.
  - reflexivity.
  - reflexivity.
  - rewrite H2. reflexivity.
Defined.

Lemma transcribe_key_missing_witness :
  serve (fst (transcribe_audio Cases.no_key Scenario.cwd Scenario.never_finishes
                Scenario.wav "u-1" Scenario.empty_world))
  = Failure 500 "'NoneType' object is not subscriptable"
  ∧ sent (trace (snd (transcribe_audio Cases.no_key Scenario.cwd
                        Scenario.never_finishes Scenario.wav "u-1"
                        Scenario.empty_world))) = [].
Proof.
  destruct (transcribe_key_missing Cases.no_key Scenario.cwd Scenario.never_finishes
              Scenario.wav "u-1" Scenario.empty_world) as (H1 & H2 & _).
  - reflexivity.
  - reflexivity.
  - split; [exact H1|]. rewrite H2. reflexivity.
Defined.

(** ** The transcription handler: polls that go wrong *)

(** A key that the body lacks, while the body is an object. *)
Lemma field_missing r k k' v w :
  field r k' = Some v →
  field r k = None →
  ∃ j, response_json r w = (Ok j, w) ∧ getitem_str j k = Raise (KeyError (JStr k)).
Proof.
  unfold field, response_json. intros H' H.
  destruct (json_body r) as [[| | | | |fields]|]; try done.
  exists (JObj fields). split; [done|]. simpl. by rewrite H.
Qed.

(** A status poll that is answered with an error status ends the handler:
    the poll is not repeated, and the client gets a 500 with the message of
    [raise_for_status]. *)
Theorem transcribe_poll_rejected cfg cwd net audio unique_id w audio_url
    transcript_id k r :
  is_audio audio = true →
  job_accepted cfg net audio (length (sent (trace w))) audio_url transcript_id →
  (1 ≤ k ≤ 30)%nat →
  polls_pending net (status_request (aai_headers cfg) transcript_id)
    (length (sent (trace w)) + 2) (k - 1) →
  net (length (sent (trace w)) + 2 + (k - 1))%nat
      (status_request (aai_headers cfg) transcript_id) = Responded r →
  succeeded r = false →
  ∃ msg,
    fst (raise_for_status r w) = Raise (HTTPError msg)
    ∧ serve (fst (transcribe_audio cfg cwd net audio unique_id w)) = Failure 500 msg
    ∧ sent (trace (snd (transcribe_audio cfg cwd net audio unique_id w)))
      = sent (trace w)
        ++ [upload_request (aai_headers cfg) (data audio);
            submit_request (aai_headers cfg) audio_url]
        ++ replicate k (status_request (aai_headers cfg) transcript_id).
Proof.
  intros Haudio Hacc Hk Hp Hnet Hfail.
  destruct (raise_for_status_fails r Hfail) as [msg Hmsg].
  exists msg. split; [by rewrite Hmsg|].
  edestruct (handler_from_job cfg cwd net audio unique_id w) as (w' & -> & Hsent);
    [exact Haudio | |].
  { rewrite (job_at_poll _ _ _ _ _ _ audio_url transcript_id k Hacc) by (done || lia).
    replace (31 - k)%nat with (S (30 - k)) by lia.
    cbn [poll].
    erewrite bind_ok; last first.
    { unfold requests_send. rewrite length_sent_before_poll. by rewrite Hnet. }
    erewrite bind_raise; last apply Hmsg. reflexivity. }
  split; [reflexivity|].
  cbn [snd]. rewrite Hsent. apply sent_after_poll. lia.
Qed.

Lemma transcribe_poll_rejected_witness :
  serve (fst (transcribe_audio Scenario.cfg Scenario.cwd Cases.breaks_on_second_poll
                Scenario.wav "u-1" Scenario.empty_world))
  = Failure 500
      "502 Server Error: Bad Gateway for url: https://api.assemblyai.com/v2/transcript/job-1"
  ∧ length (sent (trace (snd (transcribe_audio Scenario.cfg Scenario.cwd
                                Cases.breaks_on_second_poll Scenario.wav "u-1"
                                Scenario.empty_world)))) = 4%nat.
Proof.
  destruct (transcribe_poll_rejected Scenario.cfg Scenario.cwd
              Cases.breaks_on_second_poll Scenario.wav "u-1" Scenario.empty_world
              (JStr "https://cdn.example/u1") (JStr "job-1") 2 Cases.bad_gateway)
    as (msg & Hmsg & H1 & H2).
  - reflexivity.
  - split; [eexists; reflexivity|].
    exists Scenario.uploaded, Scenario.queued. repeat split; reflexivity.
  - lia.
  - intros i Hi. destruct i as [|i]; [|lia].
    exists Scenario.processing. split; reflexivity.
  - reflexivity.
  - reflexivity.
  - injection Hmsg as <-. split; [exact H1|]. rewrite H2. reflexivity.
Defined.

(** A poll that reports the job completed in a body without a [text]: the
    lookup of the key fails and the client gets a 500 whose detail is the
    quoted key. *)
Theorem transcribe_text_missing cfg cwd net audio unique_id w audio_url
    transcript_id k r :
  is_audio audio = true →
  job_accepted cfg net audio (length (sent (trace w))) audio_url transcript_id →
  (1 ≤ k ≤ 30)%nat →
  polls_pending net (status_request (aai_headers cfg) transcript_id)
    (length (sent (trace w)) + 2) (k - 1) →
  net (length (sent (trace w)) + 2 + (k - 1))%nat
      (status_request (aai_headers cfg) transcript_id) = Responded r →
  succeeded r = true →
  field r "status" = Some (JStr "completed") →
  field r "text" = None →
  serve (fst (transcribe_audio cfg cwd net audio unique_id w)) = Failure 500 "'text'".
Proof.
  intros Haudio Hacc Hk Hp Hnet Hs Hst Ht.
  edestruct (handler_from_job cfg cwd net audio unique_id w) as (w' & -> & Hsent);
    [exact Haudio | |].
  { rewrite (job_at_poll _ _ _ _ _ _ audio_url transcript_id k Hacc) by (done || lia).
    replace (31 - k)%nat with (S (30 - k)) by lia.
    cbn [poll].
    erewrite bind_ok; last first.
    { unfold requests_send. rewrite length_sent_before_poll. by rewrite Hnet. }
    erewrite bind_ok; last by apply succeeded_passes.
    edestruct (field_read r "status") as (j & Hj & Hg); [exact Hst|].
    erewrite bind_ok; last exact Hj.
    erewrite bind_ok; last by (unfold lift; rewrite Hg).
    change (eq_str (JStr "completed") "completed") with true. cbv iota.
    edestruct (field_missing r "text" "status") as (j' & Hj' & Hg'); [exact Hst|exact Ht|].
    erewrite bind_ok; last exact Hj'.
    erewrite bind_raise; last by (unfold lift; rewrite Hg').
    reflexivity. }
  reflexivity.
Qed.

Lemma transcribe_text_missing_witness :
  serve (fst (transcribe_audio Scenario.cfg Scenario.cwd Cases.completes_without_text
                Scenario.wav "u-1" Scenario.empty_world))
  = Failure 500 "'text'".
Proof.
  apply (transcribe_text_missing Scenario.cfg Scenario.cwd
           Cases.completes_without_text Scenario.wav "u-1" Scenario.empty_world
           (JStr "https://cdn.example/u1") (JStr "job-1") 1
           Cases.completed_without_text).
  - reflexivity.
  - split; [eexists; reflexivity|].
    exists Scenario.uploaded, Scenario.queued. repeat split; reflexivity.
  - lia.
  - intros i Hi. lia.
  - reflexivity.
  - reflexivity.
  - reflexivity.
  - reflexivity.
Defined.

(** ** The transcription handler: what every call keeps *)

(** Whatever the providers do, the guarded block writes the scratch file and
    nothing else, sends at most 32 requests and sleeps at most 90 seconds. *)
Lemma transcribe_job_effects cfg cwd net audio input_path w :
  ∃ tr,
    trace (snd (transcribe_job cfg cwd net audio input_path w))
    = (trace w ++ [EvWrite input_path (data audio)]) ++ tr
    ∧ fs (snd (transcribe_job cfg cwd net audio input_path w))
      = <[PyStr.abspath cwd input_path := data audio]> (fs w)
    ∧ (length (sent tr) ≤ 32)%nat
    ∧ 0 ≤ slept tr ≤ 90.
Proof.
  destruct (transcribe_job cfg cwd net audio input_path w) as [r w'] eqn:Hjob.
  unfold transcribe_job in Hjob. unfold mbind at 1 in Hjob.
  unfold M_bind, open_write in Hjob.
  match type of Hjob with
  | ?rest ?w1 = _ => assert (effects 32 90 rest) as Hrest
  end.
  { apply effects_then; [lia | apply effects_silent | intros _].
    apply effects_then; [lia | apply effects_open_read | intros f].
    apply (effects_weaken (1 + 31) (0 + 90)); [|lia|lia].
    apply effects_bind; [lia | apply effects_requests_send | intros response].
    apply effects_then; [lia | apply effects_raise_for_status | intros _].
    apply effects_then; [lia | apply effects_response_json | intros j].
    apply effects_then; [lia | apply effects_silent | intros audio_url].
    apply (effects_weaken (1 + 30) (0 + 90)); [|lia|lia].
    apply effects_bind; [lia | apply effects_requests_send | intros response'].
    apply effects_then; [lia | apply effects_raise_for_status | intros _].
    apply effects_then; [lia | apply effects_response_json | intros j'].
    apply effects_then; [lia | apply effects_silent | intros transcript_id].
    apply (effects_weaken 30 (3 * Z.of_nat 30)); [|lia|lia].
    apply effects_poll. }
  match type of Hjob with
  | ?rest ?w1 = _ => destruct (Hrest w1) as (tr & H1 & H2 & H3 & H4)
  end.
  rewrite Hjob in H1, H2. by exists tr.
Qed.

(** The polling budget.  For every upload that passes the media-type check
    and every behaviour of the providers, one call of the handler sends at
    most 32 requests (the upload, the submission and 30 polls) and sleeps at
    most 90 seconds. *)
Theorem transcribe_bounded cfg cwd net audio unique_id w :
  is_audio audio = true →
  (length (sent (trace (snd (transcribe_audio cfg cwd net audio unique_id w))))
   ≤ length (sent (trace w)) + 32)%nat
  ∧ slept (trace (snd (transcribe_audio cfg cwd net audio unique_id w)))
    ≤ slept (trace w) + 90.
Proof.
  intros Haudio.
  destruct (transcribe_job_effects cfg cwd net audio (input_path_of audio unique_id) w)
    as (tr & Htr & _ & Hreq & Hsl).
  destruct (transcribe_job cfg cwd net audio (input_path_of audio unique_id) w)
    as [r w1] eqn:Hjob.
  destruct (handler_around_job cfg cwd net audio unique_id w r w1 Haudio Hjob)
    as (tr' & -> & Hs & Hz).
  simpl in *. rewrite Htr.
  rewrite !sent_app, !length_app, !slept_app, Hs, Hz. simpl. lia.
Qed.

Lemma transcribe_bounded_witness :
  (length (sent (trace (snd (transcribe_audio Scenario.cfg Scenario.cwd
                               Scenario.never_finishes Scenario.wav "u-1"
                               Scenario.empty_world)))) ≤ 32)%nat.
Proof.
  apply (transcribe_bounded Scenario.cfg Scenario.cwd Scenario.never_finishes
           Scenario.wav "u-1" Scenario.empty_world).
  reflexivity.
Defined.

(** The handler leaves the filesystem as it found it, but for its own
    scratch path, which is absent afterwards: no other file is created,
    changed or removed, whatever the providers do. *)
Theorem transcribe_keeps_other_files cfg cwd net audio unique_id w :
  is_audio audio = true →
  fs (snd (transcribe_audio cfg cwd net audio unique_id w))
  = delete (PyStr.abspath cwd (input_path_of audio unique_id)) (fs w).
Proof.
  intros Haudio.
  destruct (transcribe_job_effects cfg cwd net audio (input_path_of audio unique_id) w)
    as (tr & _ & Hfs & _).
  destruct (transcribe_job cfg cwd net audio (input_path_of audio unique_id) w)
    as [r w1] eqn:Hjob.
  destruct (handler_around_job cfg cwd net audio unique_id w r w1 Haudio Hjob)
    as (tr' & -> & _).
  simpl in *. rewrite Hfs. apply delete_insert_eq.
Qed.

Lemma transcribe_keeps_other_files_witness :
  fs (snd (transcribe_audio Scenario.cfg Scenario.cwd Scenario.completes_on_second_poll
             Scenario.wav "u-1"
             {| fs := {["/app/temp_audio/keep.mp3" := Scenario.mp3]}; trace := [] |}))
    !! "/app/temp_audio/keep.mp3" = Some Scenario.mp3.
Proof.
  rewrite (transcribe_keeps_other_files Scenario.cfg Scenario.cwd
             Scenario.completes_on_second_poll Scenario.wav "u-1"
             {| fs := {["/app/temp_audio/keep.mp3" := Scenario.mp3]}; trace := [] |}).
  - reflexivity.
  - reflexivity.
Defined.

(** Past the media-type check the handler answers with its result or with
    status 500 and a detail: every exception of the guarded block, whatever
    its kind, is turned into a 500 by the catch-all clause. *)
Theorem transcribe_success_or_500 cfg cwd net audio unique_id w :
  is_audio audio = true →
  success_or_500 (serve (fst (transcribe_audio cfg cwd net audio unique_id w))).
Proof.
  intros Haudio.
  destruct (transcribe_job cfg cwd net audio (input_path_of audio unique_id) w)
    as [r w1] eqn:Hjob.
  destruct (handler_around_job cfg cwd net audio unique_id w r w1 Haudio Hjob)
    as (tr' & -> & _).
  destruct r as [v|e]; simpl; [left | right]; eauto.
Qed.

Lemma transcribe_success_or_500_witness :
  success_or_500
    (serve (fst (transcribe_audio Scenario.cfg Scenario.cwd Cases.unreachable
                   Scenario.wav "u-1" Scenario.empty_world))).
Proof.
  apply (transcribe_success_or_500 Scenario.cfg Scenario.cwd Cases.unreachable
           Scenario.wav "u-1" Scenario.empty_world).
  reflexivity.
Defined.

(** The time spent waiting.  A job found completed on poll [k] has cost
    [k - 1] sleeps of 3 seconds; a job that stays pending costs 30 sleeps, 90
    seconds, the last one after the 30th poll. *)
Theorem transcribe_sleeps cfg cwd net audio unique_id w audio_url transcript_id :
  is_audio audio = true →
  job_accepted cfg net audio (length (sent (trace w))) audio_url transcript_id →
  (∀ k r text,
     (1 ≤ k ≤ 30)%nat →
     polls_pending net (status_request (aai_headers cfg) transcript_id)
       (length (sent (trace w)) + 2) (k - 1) →
     net (length (sent (trace w)) + 2 + (k - 1))%nat
         (status_request (aai_headers cfg) transcript_id) = Responded r →
     succeeded r = true →
     field r "status" = Some (JStr "completed") →
     field r "text" = Some text →
     slept (trace (snd (transcribe_audio cfg cwd net audio unique_id w)))
     = slept (trace w) + 3 * (Z.of_nat k - 1))
  ∧ (polls_pending net (status_request (aai_headers cfg) transcript_id)
       (length (sent (trace w)) + 2) 30 →
     slept (trace (snd (transcribe_audio cfg cwd net audio unique_id w)))
     = slept (trace w) + 90).
Proof.
  intros Haudio Hacc. split.
  - intros k r text Hk Hp Hnet Hs Hst Ht.
    edestruct (handler_around_job cfg cwd net audio unique_id w) as (tr & -> & _ & Hz);
      [exact Haudio | |].
    { rewrite (job_at_poll _ _ _ _ _ _ audio_url transcript_id k Hacc) by (done || lia).
      replace (31 - k)%nat with (S (30 - k)) by lia.
      apply (poll_completed net _ _ _ _ r text); try done.
      by rewrite length_sent_before_poll. }
    simpl. rewrite !slept_app, Hz, slept_pending_polls. simpl. lia.
  - intros Hp.
    edestruct (handler_around_job cfg cwd net audio unique_id w) as (tr & -> & _ & Hz);
      [exact Haudio | |].
    { rewrite (job_at_poll _ _ _ _ _ _ audio_url transcript_id 31 Hacc) by (done || lia).
      reflexivity. }
    simpl. rewrite !slept_app, Hz, slept_pending_polls. simpl. lia.
Qed.

Lemma transcribe_sleeps_witness :
  slept (trace (snd (transcribe_audio Scenario.cfg Scenario.cwd Scenario.never_finishes
                       Scenario.wav "u-1" Scenario.empty_world))) = 90.
Proof.
  destruct (transcribe_sleeps Scenario.cfg Scenario.cwd Scenario.never_finishes
              Scenario.wav "u-1" Scenario.empty_world
              (JStr "https://cdn.example/u1") (JStr "job-1")) as [_ H].
  - reflexivity.
  - split; [eexists; reflexivity|].
    exists Scenario.uploaded, Scenario.queued. repeat split; reflexivity.
  - rewrite H; [reflexivity|].
    intros i Hi. exists Scenario.processing. split; reflexivity.
Defined.

(** ** The translation handler *)

Section TranslationOutcomes.

Variable cfg : config.
Variable net : provider.
Variable text source_language target_language : string.
Variable w : world.

Let request := translate_request cfg text source_language target_language.

(** The handler from the answer to its one request: [after] is what the
    statements behind the request make of a response. *)
Lemma translate_text_answered r :
  net (length (sent (trace w))) request = Responded r →
  fst (translate_text cfg net text source_language target_language w)
  = fst (try_except
           (raise_for_status r;;
            j ← response_json r;
            d ← lift (getitem_str j "data");
            ts ← lift (getitem_str d "translations");
            t ← lift (getitem_int ts 0);
            translated_text ← lift (getitem_str t "translatedText");
            mret (RJson (JObj [("translated_text", translated_text)])))
           [(any_Exception, λ e, raise (HTTPException 500 (str_exn e)))]
           (emit (EvRequest request) w)).
Proof.
  intros Hnet. unfold translate_text, try_except.
  erewrite bind_ok; last by (unfold requests_send; fold request; rewrite Hnet).
  reflexivity.
Qed.

End TranslationOutcomes.

(** A successful answer whose body holds a list of translations: the handler
    returns the text of the first one. *)
Theorem translate_returns_first cfg net text source_language target_language w r
    fields d t others translated :
  net (length (sent (trace w)))
      (translate_request cfg text source_language target_language) = Responded r →
  succeeded r = true →
  json_body r = Some (JObj fields) →
  assoc "data" fields = Some (JObj d) →
  assoc "translations" d = Some (JArr (JObj t :: others)) →
  assoc "translatedText" t = Some translated →
  serve (fst (translate_text cfg net text source_language target_language w))
  = Success (RJson (JObj [("translated_text", translated)])).
Proof.
  intros Hnet Hs Hj Hd Hts Ht.
  rewrite (translate_text_answered _ _ _ _ _ _ r Hnet).
  unfold try_except.
  erewrite bind_ok; last by apply succeeded_passes.
  erewrite bind_ok; last by (unfold response_json; rewrite Hj).
  erewrite bind_ok; last by (unfold lift; simpl; rewrite Hd).
  erewrite bind_ok; last by (unfold lift; simpl; rewrite Hts).
  erewrite bind_ok; last by (unfold lift; simpl).
  erewrite bind_ok; last by (unfold lift; simpl; rewrite Ht).
  reflexivity.
Qed.

Lemma translate_returns_first_witness :
  serve (fst (translate_text Scenario.cfg Scenario.translates "hola" "es" "en"
                Scenario.empty_world))
  = Success (RJson (JObj [("translated_text", JStr "hello")])).
Proof.
  eapply (translate_returns_first Scenario.cfg Scenario.translates "hola" "es" "en"
            Scenario.empty_world); reflexivity.
Defined.

(** An answer with an error status: a 500 whose detail is the message of
    [raise_for_status]; the body is not looked at. *)
Theorem translate_rejected cfg net text source_language target_language w r :
  net (length (sent (trace w)))
      (translate_request cfg text source_language target_language) = Responded r →
  succeeded r = false →
  ∃ msg,
    fst (raise_for_status r w) = Raise (HTTPError msg)
    ∧ serve (fst (translate_text cfg net text source_language target_language w))
      = Failure 500 msg.
Proof.
  intros Hnet Hfail.
  destruct (raise_for_status_fails r Hfail) as [msg Hmsg].
  exists msg. split; [by rewrite Hmsg|].
  rewrite (translate_text_answered _ _ _ _ _ _ r Hnet).
  unfold try_except.
  erewrite bind_raise; last apply Hmsg. reflexivity.
Qed.

Lemma translate_rejected_witness :
  serve (fst (translate_text Scenario.cfg Cases.refuses_translation "hola" "es" "en"
                Scenario.empty_world))
  = Failure 500
      "403 Client Error: Forbidden for url: https://translation.googleapis.com/language/translate/v2?key=google-key".
Proof.
  destruct (translate_rejected Scenario.cfg Cases.refuses_translation "hola" "es" "en"
              Scenario.empty_world Cases.forbidden) as (msg & Hmsg & H).
  - reflexivity.
  - reflexivity.
  - injection Hmsg as <-. exact H.
Defined.

(** A successful answer with an empty list of translations: indexing the
    list fails and the client gets a 500 with the text of the index error. *)
Theorem translate_empty_list cfg net text source_language target_language w r
    fields d :
  net (length (sent (trace w)))
      (translate_request cfg text source_language target_language) = Responded r →
  succeeded r = true →
  json_body r = Some (JObj fields) →
  assoc "data" fields = Some (JObj d) →
  assoc "translations" d = Some (JArr []) →
  serve (fst (translate_text cfg net text source_language target_language w))
  = Failure 500 "list index out of range".
Proof.
  intros Hnet Hs Hj Hd Hts.
  rewrite (translate_text_answered _ _ _ _ _ _ r Hnet).
  unfold try_except.
  erewrite bind_ok; last by apply succeeded_passes.
  erewrite bind_ok; last by (unfold response_json; rewrite Hj).
  erewrite bind_ok; last by (unfold lift; simpl; rewrite Hd).
  erewrite bind_ok; last by (unfold lift; simpl; rewrite Hts).
  erewrite bind_raise; last by (unfold lift; simpl).
  reflexivity.
Qed.

Lemma translate_empty_list_witness :
  serve (fst (translate_text Scenario.cfg Cases.translates_nothing "hola" "es" "en"
                Scenario.empty_world))
  = Failure 500 "list index out of range".
Proof.
  eapply (translate_empty_list Scenario.cfg Cases.translates_nothing "hola" "es" "en"
            Scenario.empty_world); reflexivity.
Defined.

(** Every call of the translation handler sends exactly one request, leaves
    the filesystem alone, and answers with its result or with status 500:
    transport failures, error statuses and malformed bodies all end in the
    catch-all clause. *)
Theorem translate_single_request cfg net text source_language target_language w :
  success_or_500
    (serve (fst (translate_text cfg net text source_language target_language w)))
  ∧ sent (trace (snd (translate_text cfg net text source_language target_language w)))
    = sent (trace w) ++ [translate_request cfg text source_language target_language]
  ∧ fs (snd (translate_text cfg net text source_language target_language w)) = fs w.
Proof.
  split; [|split].
  - unfold translate_text, try_except.
    match goal with
    | |- context [match ?run with _ => _ end] => destruct run as [[v|e] w1]
    end; simpl; [left | right]; eauto.
  - rewrite translate_text_world. apply sent_emit_request.
  - by rewrite translate_text_world.
Qed.

(** ** The speech-synthesis handler *)

Lemma startswith_app a b :
  PyStr.startswith a "/" = true → PyStr.startswith (a +:+ b) "/" = true.
Proof.
  unfold PyStr.startswith. destruct a as [|c a]; [done|].
  change (String c a +:+ b) with (String c (a +:+ b)). cbn [String.prefix].
  destruct (ascii_dec "/"%char c); [|done].
  intros _. by destruct (a +:+ b).
Qed.

(** Under an absolute working directory the name of a temporary file is
    absolute, so opening it again reaches the same file. *)
Lemma scratch_path_absolute cwd x :
  PyStr.startswith cwd "/" = true →
  PyStr.abspath cwd (PyStr.join (PyStr.abspath cwd "temp_audio") x)
  = PyStr.join (PyStr.abspath cwd "temp_audio") x.
Proof.
  intros Hcwd.
  assert (PyStr.abspath cwd "temp_audio" = PyStr.join cwd "temp_audio") as -> by done.
  rewrite join_dir.
  assert (PyStr.startswith (PyStr.join cwd "temp_audio") "/" = true) as Habs.
  { unfold PyStr.join. destruct cwd as [|c cwd]; [done|].
    change (String c cwd =? "")%string with false. cbv iota.
    case_match; by apply startswith_app. }
  unfold PyStr.abspath. by rewrite (startswith_app _ _ Habs).
Qed.

Lemma mkstemp_inner_exhausted cwd dir pre suf names w :
  (∀ name, name ∈ names →
     is_Some (fs w !! PyStr.join (PyStr.abspath cwd dir) (pre +:+ name +:+ suf))) →
  mkstemp_inner cwd dir pre suf names w
  = (Raise (FileExistsError "[Errno 17] No usable temporary file name found"), w).
Proof.
  induction names as [|name rest IH]; intros H; [done|].
  simpl. destruct (H name) as [d ->]; [by left|].
  apply IH. intros n Hn. apply H. by right.
Qed.

Section SynthesisOutcomes.

Variable cfg : config.
Variable cwd : string.
Variable net : provider.
Variable text language : string.
Variable names : list string.
Variable w : world.
Variable output_path : string.
Variable w1 : world.

Let request :=
  tts_request cfg (ssml_of (lang_code_of language) (voice_of language) text).

Hypothesis Habsolute : PyStr.startswith cwd "/" = true.
Hypothesis Hcreated :
  NamedTemporaryFile cwd ".mp3" "temp_audio" names w = (Ok output_path, w1).

Lemma tts_path_absolute : PyStr.abspath cwd output_path = output_path.
Proof.
  destruct (mkstemp_inner_ok _ _ _ _ _ _ _ _ Hcreated) as (_ & _ & name & _ & ->).
  by apply scratch_path_absolute.
Qed.

(** The handler run when the provider answers 200. *)
Lemma tts_synthesized resp :
  net (length (sent (trace w))) request = Responded resp →
  status_code resp = 200 →
  text_to_speech cfg cwd net text language names w
  = (Ok (RFile output_path "audio/mpeg" ("output_" +:+ PyStr.basename output_path)),
     {| fs := <[output_path := content resp]> (fs w);
        trace := trace w ++ [EvWrite output_path []; EvRequest request;
                             EvWrite output_path (content resp)] |}).
Proof.
  intros Hnet Hst. unfold text_to_speech.
  erewrite bind_ok; last exact Hcreated.
  destruct (tts_created cwd names w output_path w1 Hcreated) as [Hnew Hw1].
  unfold try_finally, try_except.
  erewrite bind_ok; last first.
  { unfold requests_send. rewrite (tts_request_index cwd names w output_path w1 Hcreated).
    fold request. by rewrite Hnet. }
  rewrite Hst. simpl Z.eqb. simpl negb. cbv iota.
  erewrite bind_ok; last reflexivity.
  erewrite bind_ok; last reflexivity.
  erewrite bind_ok; last first.
  { unfold os_path_exists. simpl. rewrite lookup_insert_eq.
    rewrite bool_decide_eq_true_2 by eauto. reflexivity. }
  simpl negb. cbv iota.
  erewrite bind_ok; last reflexivity.
  simpl. rewrite tts_path_absolute, Hw1. simpl.
  rewrite insert_insert_eq. by rewrite <- !app_assoc.
Qed.

(** The filesystem after any run: the scratch file aside, as before. *)
Lemma tts_other_files p :
  p ≠ output_path →
  fs (snd (text_to_speech cfg cwd net text language names w)) !! p = fs w !! p.
Proof.
  intros Hp. unfold text_to_speech.
  erewrite bind_ok; last exact Hcreated.
  destruct (tts_created cwd names w output_path w1 Hcreated) as [Hnew Hw1].
  unfold try_finally, try_except, mbind, M_bind, requests_send.
  destruct (net (length (sent (trace w1))) _) as [resp|msg]; simpl.
  - destruct (status_code resp =? 200); simpl.
    + unfold os_path_exists. simpl. rewrite lookup_insert_eq.
      rewrite bool_decide_eq_true_2 by eauto. simpl.
      rewrite tts_path_absolute, Hw1. simpl.
      by rewrite !lookup_insert_ne.
    + rewrite Hw1. simpl. by rewrite lookup_insert_ne.
  - rewrite Hw1. simpl. by rewrite lookup_insert_ne.
Qed.

End SynthesisOutcomes.

(** A 200 answer: the handler stores the audio of the response in its
    scratch file and returns that file as [audio/mpeg], offered for download
    under its name behind ["output_"]; the effects are the creation of the
    file, the request and the write, in this order. *)
Theorem tts_returns_file cfg cwd net text language names w output_path w1 resp :
  PyStr.startswith cwd "/" = true →
  NamedTemporaryFile cwd ".mp3" "temp_audio" names w = (Ok output_path, w1) →
  net (length (sent (trace w)))
      (tts_request cfg (ssml_of (lang_code_of language) (voice_of language) text))
  = Responded resp →
  status_code resp = 200 →
  serve (fst (text_to_speech cfg cwd net text language names w))
  = Success (RFile output_path "audio/mpeg"
                   ("output_" +:+ PyStr.basename output_path))
  ∧ fs (snd (text_to_speech cfg cwd net text language names w)) !! output_path
    = Some (content resp)
  ∧ trace (snd (text_to_speech cfg cwd net text language names w))
    = trace w
      ++ [EvWrite output_path [];
          EvRequest (tts_request cfg
                       (ssml_of (lang_code_of language) (voice_of language) text));
          EvWrite output_path (content resp)].
Proof.
  intros Habs Hcreated Hnet Hst.
  rewrite (tts_synthesized cfg cwd net text language names w output_path w1
             Habs Hcreated resp Hnet Hst).
  simpl. split; [done|]. split; [apply lookup_insert_eq | done].
Qed.

Lemma tts_returns_file_witness :
  serve (fst (text_to_speech Scenario.cfg Scenario.cwd Scenario.synthesizes
                "hello" "xx" ["k3v9x_q2"] Scenario.empty_world))
  = Success (RFile "/app/temp_audio/tmpk3v9x_q2.mp3" "audio/mpeg"
                   "output_tmpk3v9x_q2.mp3").
Proof.
  destruct (tts_returns_file Scenario.cfg Scenario.cwd Scenario.synthesizes
              "hello" "xx" ["k3v9x_q2"] Scenario.empty_world
              "/app/temp_audio/tmpk3v9x_q2.mp3"
              {| fs := <["/app/temp_audio/tmpk3v9x_q2.mp3" := []]> ∅;
                 trace := [EvWrite "/app/temp_audio/tmpk3v9x_q2.mp3" []] |}
              {| status_code := 200; reason := "OK"; resp_url := "";
                 resp_text := ""; content := Scenario.mp3; json_body := None |})
    as (H & _).
  - reflexivity.
  - reflexivity.
  - reflexivity.
  - reflexivity.
  - exact H.
Defined.

(** When every candidate name of the temporary-file generator is taken, the
    handler fails before its guarded block: the exception is not turned into
    an [HTTPException], nothing is sent and nothing is written. *)
Theorem tts_names_exhausted cfg cwd net text language names w :
  (∀ name, name ∈ names →
     is_Some (fs w !! PyStr.join (PyStr.abspath cwd "temp_audio")
                        ("tmp" +:+ name +:+ ".mp3"))) →
  serve (fst (text_to_speech cfg cwd net text language names w)) = InternalServerError
  ∧ snd (text_to_speech cfg cwd net text language names w) = w.
Proof.
  intros Htaken. unfold text_to_speech.
  erewrite bind_raise; last by apply mkstemp_inner_exhausted.
  done.
Qed.

Lemma tts_names_exhausted_witness :
  serve (fst (text_to_speech Scenario.cfg Scenario.cwd Scenario.synthesizes
                "hello" "en" ["k3v9x_q2"]
                {| fs := {["/app/temp_audio/tmpk3v9x_q2.mp3" := Scenario.mp3]};
                   trace := [] |}))
  = InternalServerError.
Proof.
  destruct (tts_names_exhausted Scenario.cfg Scenario.cwd Scenario.synthesizes
              "hello" "en" ["k3v9x_q2"]
              {| fs := {["/app/temp_audio/tmpk3v9x_q2.mp3" := Scenario.mp3]};
                 trace := [] |}) as [H _].
  - intros name Hname. apply list_elem_of_singleton in Hname as ->.
    eexists. reflexivity.
  - exact H.
Defined.

(** The scratch file of a call is a new file, and the call changes no other
    file, whatever the provider answers: the name generator skips the names
    that are taken, so no existing file is overwritten. *)
Theorem tts_changes_only_its_file cfg cwd net text language names w output_path w1 :
  PyStr.startswith cwd "/" = true →
  NamedTemporaryFile cwd ".mp3" "temp_audio" names w = (Ok output_path, w1) →
  fs w !! output_path = None
  ∧ ∀ p, p ≠ output_path →
         fs (snd (text_to_speech cfg cwd net text language names w)) !! p = fs w !! p.
Proof.
  intros Habs Hcreated. split.
  - by destruct (tts_created cwd names w output_path w1 Hcreated).
  - intros p Hp.
    by apply (tts_other_files cfg cwd net text language names w output_path w1).
Qed.

Lemma tts_changes_only_its_file_witness :
  fs (snd (text_to_speech Scenario.cfg Scenario.cwd Scenario.synthesizes
             "hello" "en" ["taken001"; "k3v9x_q2"]
             {| fs := {["/app/temp_audio/tmptaken001.mp3" := [x01]%byte]};
                trace := [] |}))
    !! "/app/temp_audio/tmptaken001.mp3" = Some [x01]%byte.
Proof.
  destruct (tts_changes_only_its_file Scenario.cfg Scenario.cwd Scenario.synthesizes
              "hello" "en" ["taken001"; "k3v9x_q2"]
              {| fs := {["/app/temp_audio/tmptaken001.mp3" := [x01]%byte]};
                 trace := [] |}
              "/app/temp_audio/tmpk3v9x_q2.mp3"
              {| fs := <["/app/temp_audio/tmpk3v9x_q2.mp3" := []]>
                         {["/app/temp_audio/tmptaken001.mp3" := [x01]%byte]};
                 trace := [EvWrite "/app/temp_audio/tmpk3v9x_q2.mp3" []] |})
    as [_ H].
  - reflexivity.
  - reflexivity.
  - rewrite H; [reflexivity | discriminate].
Defined.

(** Once its scratch file is created the handler answers with the file or
    with status 500, and it sends exactly one request. *)
Theorem tts_success_or_500 cfg cwd net text language names w output_path w1 :
  NamedTemporaryFile cwd ".mp3" "temp_audio" names w = (Ok output_path, w1) →
  success_or_500 (serve (fst (text_to_speech cfg cwd net text language names w)))
  ∧ length (sent (trace (snd (text_to_speech cfg cwd net text language names w))))
    = S (length (sent (trace w))).
Proof.
  intros Hcreated. split.
  - unfold text_to_speech.
    erewrite bind_ok; last exact Hcreated.
    unfold try_finally, try_except.
    match goal with
    | |- context [mbind ?f ?m w1] => destruct (mbind f m w1) as [[v|e] w2]
    end; simpl; [left | right]; eauto.
  - rewrite (tts_sends cfg cwd net text language names w output_path w1 Hcreated).
    rewrite length_app. simpl. lia.
Qed.

Lemma tts_success_or_500_witness :
  success_or_500
    (serve (fst (text_to_speech Scenario.cfg Scenario.cwd Cases.unreachable
                   "hello" "en" ["k3v9x_q2"] Scenario.empty_world))).
Proof.
  destruct (tts_success_or_500 Scenario.cfg Scenario.cwd Cases.unreachable
              "hello" "en" ["k3v9x_q2"] Scenario.empty_world
              "/app/temp_audio/tmpk3v9x_q2.mp3"
              {| fs := <["/app/temp_audio/tmpk3v9x_q2.mp3" := []]> ∅;
                 trace := [EvWrite "/app/temp_audio/tmpk3v9x_q2.mp3" []] |})
    as [H _].
  - reflexivity.
  - exact H.
Defined.

(** ** The shutdown sweep *)

Lemma prefix_app d x : String.prefix d (d +:+ x) = true.
Proof.
  induction d as [|c d IH]; [by destruct x|].
  change (String c d +:+ x) with (String c (d +:+ x)). cbn [String.prefix].
  by destruct (ascii_dec c c).
Qed.

Lemma substring_all x : substring 0 (String.length x) x = x.
Proof. induction x as [|c x IH]; [done|]. simpl. by rewrite IH. Qed.

Lemma drop_app d x : PyStr.drop (Z.of_nat (String.length d)) (d +:+ x) = x.
Proof.
  unfold PyStr.drop. rewrite Nat2Z.id.
  induction d as [|c d IH].
  - change ("" +:+ x) with x. rewrite Nat.sub_0_r. apply substring_all.
  - change (String c d +:+ x) with (String c (d +:+ x)). exact IH.
Qed.

Lemma fnmatch_output_visible name :
  PyStr.fnmatch "output_*.mp3" name = true → PyStr.startswith name "." = false.
Proof.
  destruct name as [|c name]; [done|].
  cbn [PyStr.fnmatch]. intros H. apply andb_prop in H as [H _].
  apply Ascii.eqb_eq in H as <-. reflexivity.
Qed.

Section Sweep.

Variable cwd : string.

(** The sweep returns, sends nothing, and only ever removes files. *)
Lemma sweep_returns files : ∀ w,
  fst (sweep cwd files w) = Ok ()
  ∧ sent (trace (snd (sweep cwd files w))) = sent (trace w)
  ∧ ∀ p, fs w !! p = None → fs (snd (sweep cwd files w)) !! p = None.
Proof.
  induction files as [|file rest IH]; intros w; [done|].
  simpl. unfold mbind at 1 2 3. unfold M_bind, try_except.
  destruct (remove_if_exists_run cwd file w) as (w' & -> & Hfs & Hsent).
  destruct (IH w') as (H1 & H2 & H3).
  split; [done|]. split; [by rewrite H2|].
  intros p Hp. apply H3. rewrite Hfs.
  destruct (decide (PyStr.abspath cwd file = p)) as [<-|Hne].
  - apply lookup_delete_eq.
  - by rewrite lookup_delete_ne.
Qed.

(** Every file of its list is gone after the sweep. *)
Lemma sweep_removes files : ∀ w file,
  file ∈ files →
  fs (snd (sweep cwd files w)) !! PyStr.abspath cwd file = None.
Proof.
  induction files as [|f rest IH]; intros w file Hin.
  - by apply not_elem_of_nil in Hin.
  - simpl. unfold mbind at 1. unfold M_bind, try_except.
    destruct (remove_if_exists_run cwd f w) as (w' & -> & Hfs & _).
    apply elem_of_cons in Hin as [->|Hin].
    + apply sweep_returns. rewrite Hfs. apply lookup_delete_eq.
    + by apply IH.
Qed.

(** The listing of the scratch directory does not fail and changes
    nothing. *)
Lemma glob_glob_returns pattern w :
  ∃ files, glob_glob cwd pattern w = (Ok files, w).
Proof. by eexists. Qed.

(** A file of the scratch directory whose name matches is in the list. *)
Lemma glob_output_finds w name d files :
  fs w !! PyStr.abspath cwd ("temp_audio/" +:+ name) = Some d →
  PyStr.fnmatch "output_*.mp3" name = true →
  PyStr.contains name "/" = false →
  glob_glob cwd "temp_audio/output_*.mp3" w = (Ok files, w) →
  "temp_audio/" +:+ name ∈ files.
Proof.
  intros Hfile Hmatch Hslash Hglob.
  unfold glob_glob, mbind, M_bind, os_listdir, mret, M_ret in Hglob.
  change (PyStr.split "temp_audio/output_*.mp3")
    with ("temp_audio", "output_*.mp3") in Hglob.
  cbn [fst snd] in Hglob.
  injection Hglob as <-.
  apply (list_elem_of_fmap_2 (PyStr.join "temp_audio")).
  apply list_elem_of_In, filter_In. split.
  - apply list_elem_of_In, list_elem_of_omap.
    exists (PyStr.abspath cwd ("temp_audio/" +:+ name)). split.
    + apply (list_elem_of_fmap_2 fst _ (_, d)). by apply elem_of_map_to_list.
    + rewrite join_file.
      assert (PyStr.abspath cwd "temp_audio" = PyStr.join cwd "temp_audio") as -> by done.
      rewrite <- append_assoc.
      unfold PyStr.startswith. rewrite prefix_app, drop_app. by rewrite Hslash.
  - change (PyStr.fnmatch "output_*.mp3" name
            && (negb (PyStr.startswith name ".")
                || PyStr.startswith "output_*.mp3" ".") = true).
    rewrite Hmatch. by rewrite (fnmatch_output_visible name Hmatch).
Qed.

End Sweep.

(** The sweep removes every file that lies directly in the scratch
    directory under a name matching ["output_*.mp3"]: none of them is left
    afterwards. *)
Theorem cleanup_removes_matching cwd w name :
  PyStr.fnmatch "output_*.mp3" name = true →
  PyStr.contains name "/" = false →
  fs (snd (cleanup_temp_files cwd w)) !! PyStr.abspath cwd ("temp_audio/" +:+ name)
  = None.
Proof.
  intros Hmatch Hslash.
  unfold cleanup_temp_files. unfold mbind at 1. unfold M_bind.
  destruct (glob_glob_returns cwd "temp_audio/output_*.mp3" w) as [files Hglob].
  rewrite Hglob.
  destruct (fs w !! PyStr.abspath cwd ("temp_audio/" +:+ name)) as [d|] eqn:Hfile.
  - apply sweep_removes.
    by apply (glob_output_finds cwd w name d files).
  - by apply sweep_returns.
Qed.

Lemma cleanup_removes_matching_witness :
  fs (snd (cleanup_temp_files Scenario.cwd
             {| fs := {["/app/temp_audio/output_7f3a.mp3" := Scenario.mp3]};
                trace := [] |}))
    !! "/app/temp_audio/output_7f3a.mp3" = None.
Proof.
  apply (cleanup_removes_matching Scenario.cwd
           {| fs := {["/app/temp_audio/output_7f3a.mp3" := Scenario.mp3]};
              trace := [] |} "output_7f3a.mp3").
  - reflexivity.
  - reflexivity.
Defined.

(** The sweep is contained: it never raises, it sends nothing, and it
    leaves every path alone that is not a matching name of the scratch
    directory; in particular files of other directories and the scratch
    input files of the transcription handler. *)
Theorem cleanup_contained cwd w :
  fst (cleanup_temp_files cwd w) = Ok ()
  ∧ sent (trace (snd (cleanup_temp_files cwd w))) = sent (trace w)
  ∧ ∀ p,
      (∀ name, PyStr.fnmatch "output_*.mp3" name = true →
               p ≠ PyStr.abspath cwd ("temp_audio/" +:+ name)) →
      fs (snd (cleanup_temp_files cwd w)) !! p = fs w !! p.
Proof.
  unfold cleanup_temp_files. unfold mbind at 1 2 3. unfold M_bind.
  destruct (glob_glob_returns cwd "temp_audio/output_*.mp3" w) as [files Hglob].
  rewrite Hglob.
  destruct (sweep_returns cwd files w) as (H1 & H2 & _).
  split; [done|]. split; [done|].
  intros p Hp. apply sweep_other. intros file Hin.
  destruct (glob_output_files _ _ _ _ Hglob file Hin) as (name & -> & Hname).
  intros Heq. by apply (Hp name).
Qed.

(** ** The realtime-token handler: failures *)

(** Without a usable key the handler reports it, and sends nothing. *)
Theorem token_key_missing cfg net w :
  truthy (ASSEMBLYAI_API_KEY cfg) = false →
  serve (fst (get_realtime_token cfg net w))
  = Failure 500 ("Failed to create Universal Streaming token: " +:+ msg_key_missing)
  ∧ snd (get_realtime_token cfg net w) = w.
Proof.
  intros Hkey. unfold get_realtime_token, try_except.
  erewrite bind_raise; last by (rewrite Hkey).
  done.
Qed.

Lemma token_key_missing_witness :
  serve (fst (get_realtime_token Cases.empty_key Scenario.streaming_forbidden
                Scenario.empty_world))
  = Failure 500 "Failed to create Universal Streaming token: AssemblyAI API key not found".
Proof.
  destruct (token_key_missing Cases.empty_key Scenario.streaming_forbidden
              Scenario.empty_world) as [H _].
  - reflexivity.
  - exact H.
Defined.

(** A key that the test call answers with 401: the handler reports the
    failed test and never asks the token endpoint. *)
Theorem token_key_test_unauthorized cfg net w t :
  truthy (ASSEMBLYAI_API_KEY cfg) = true →
  net (length (sent (trace w))) (key_test_request cfg) = Responded t →
  status_code t = 401 →
  serve (fst (get_realtime_token cfg net w))
  = Failure 500 ("Failed to create Universal Streaming token: " +:+ msg_key_test_failed)
  ∧ sent (trace (snd (get_realtime_token cfg net w)))
    = sent (trace w) ++ [key_test_request cfg].
Proof.
  intros Hkey Htest H401. unfold get_realtime_token, try_except.
  rewrite Hkey. simpl negb. cbv iota.
  erewrite bind_ok; last reflexivity.
  destruct (truthy_slice _ 8 Hkey) as [s Hs].
  erewrite bind_ok; last by (unfold lift; rewrite Hs).
  erewrite bind_ok; last by (unfold requests_send; rewrite Htest).
  rewrite H401. simpl Z.eqb. cbv iota.
  erewrite bind_raise; last reflexivity.
  simpl. split; [done|]. rewrite sent_app. reflexivity.
Qed.

Lemma token_key_test_unauthorized_witness :
  sent (trace (snd (get_realtime_token Scenario.cfg Cases.rejects_key
                      Scenario.empty_world)))
  = [key_test_request Scenario.cfg].
Proof.
  destruct (token_key_test_unauthorized Scenario.cfg Cases.rejects_key
              Scenario.empty_world (Scenario.answer 401 "Unauthorized" None))
    as [_ H].
  - reflexivity.
  - reflexivity.
  - reflexivity.
  - exact H.
Defined.

(** A transport failure, on the test call or on the token request, is
    reported by the first handler clause as a network error with the
    transport's message. *)
Theorem token_network_error cfg net w msg :
  truthy (ASSEMBLYAI_API_KEY cfg) = true →
  net (length (sent (trace w))) (key_test_request cfg) = Failed msg
  ∨ (∃ t, net (length (sent (trace w))) (key_test_request cfg) = Responded t
          ∧ status_code t ≠ 401
          ∧ net (S (length (sent (trace w)))) (token_request cfg) = Failed msg) →
  serve (fst (get_realtime_token cfg net w))
  = Failure 500 ("Network error connecting to AssemblyAI: " +:+ msg).
Proof.
  intros Hkey Hnet. unfold get_realtime_token, try_except.
  rewrite Hkey. simpl negb. cbv iota.
  erewrite bind_ok; last reflexivity.
  destruct (truthy_slice _ 8 Hkey) as [s Hs].
  erewrite bind_ok; last by (unfold lift; rewrite Hs).
  destruct Hnet as [Htest | (t & Htest & Hpassed & Htoken)].
  - erewrite bind_raise; last by (unfold requests_send; rewrite Htest).
    reflexivity.
  - erewrite bind_ok; last by (unfold requests_send; rewrite Htest).
    apply Z.eqb_neq in Hpassed. rewrite Hpassed.
    erewrite bind_ok; last reflexivity.
    erewrite bind_raise; last first.
    { unfold requests_send. rewrite sent_emit_request, length_app. simpl.
      rewrite Nat.add_1_r. by rewrite Htoken. }
    reflexivity.
Qed.

Lemma token_network_error_witness :
  serve (fst (get_realtime_token Scenario.cfg Cases.token_unreachable
                Scenario.empty_world))
  = Failure 500 "Network error connecting to AssemblyAI: Connection reset by peer".
Proof.
  apply (token_network_error Scenario.cfg Cases.token_unreachable
           Scenario.empty_world "Connection reset by peer").
  - reflexivity.
  - right. exists Cases.listing. repeat split; (reflexivity || discriminate).
Defined.

(** A 200 answer of the token endpoint that cannot be used.  A body that is
    not JSON is caught by the inner clause and reported with the response
    text; a JSON object without a token is reported with the object.  Both
    are failures of the token creation, not network errors. *)
Theorem token_unusable_body cfg net w t r :
  truthy (ASSEMBLYAI_API_KEY cfg) = true →
  net (length (sent (trace w))) (key_test_request cfg) = Responded t →
  status_code t ≠ 401 →
  net (S (length (sent (trace w)))) (token_request cfg) = Responded r →
  status_code r = 200 →
  (json_body r = None →
   serve (fst (get_realtime_token cfg net w))
   = Failure 500 ("Failed to create Universal Streaming token: Invalid JSON response: "
                  +:+ resp_text r))
  ∧ (∀ fields, json_body r = Some (JObj fields) → assoc "token" fields = None →
     serve (fst (get_realtime_token cfg net w))
     = Failure 500 ("Failed to create Universal Streaming token: No token in response: "
                    +:+ py_repr (JObj fields))).
Proof.
  intros Hkey Htest Hpassed Htoken H200.
  split; [intros Hj | intros fields Hj Hnone];
    unfold get_realtime_token, try_except at 1;
    rewrite (token_requested cfg net w t r Hkey Htest Hpassed Htoken);
    rewrite H200; simpl Z.eqb; cbv iota; simpl negb; cbv iota;
    (erewrite bind_ok; last reflexivity);
    unfold try_except.
  - erewrite bind_raise; last by (unfold response_json; rewrite Hj).
    reflexivity.
  - erewrite bind_ok; last by (unfold response_json; rewrite Hj).
    erewrite bind_ok; last by (unfold lift, contains_str; rewrite Hnone).
    rewrite bool_decide_eq_false_2 by (intros [? ?]; congruence).
    simpl negb. cbv iota.
    erewrite bind_raise; last reflexivity. reflexivity.
Qed.

Lemma token_unusable_body_witness :
  serve (fst (get_realtime_token Scenario.cfg Cases.answers_with_page
                Scenario.empty_world))
  = Failure 500
      "Failed to create Universal Streaming token: Invalid JSON response: <html>maintenance</html>".
Proof.
  destruct (token_unusable_body Scenario.cfg Cases.answers_with_page
              Scenario.empty_world Cases.listing
              (Scenario.answer 200 "<html>maintenance</html>" None)) as [H _].
  - reflexivity.
  - reflexivity.
  - discriminate.
  - reflexivity.
  - reflexivity.
  - apply H. reflexivity.
Defined.

(** ** The realtime-token handler: what every call keeps *)

Lemma effects_dispatch {A} (clauses : list ((exn → bool) * (exn → M A))) :
  Forall (λ clause, ∀ e, effects 0 0 (snd clause e)) clauses →
  ∀ e, effects 0 0 (dispatch clauses e).
Proof.
  induction 1 as [|[catches h] rest Hh _ IH]; intros e; simpl.
  - apply effects_raise.
  - destruct (catches e); [apply Hh | apply IH].
Qed.

Lemma effects_try_except_all {A} r s (m : M A) clauses :
  effects r s m →
  Forall (λ clause, ∀ e, effects 0 0 (snd clause e)) clauses →
  effects r s (try_except m clauses).
Proof.
  intros Hm Hcl w. unfold try_except.
  destruct (Hm w) as (tr & H1 & H2 & H3 & H4).
  destruct (m w) as [[a|e] w1]; simpl in *.
  - by exists tr.
  - destruct (effects_dispatch clauses Hcl e w1) as (tr' & H1' & H2' & H3' & H4').
    exists (tr ++ tr'). rewrite H1', H1, H2', H2, sent_app, length_app, slept_app.
    rewrite <- app_assoc. repeat split; (done || lia).
Qed.

(** The token handler sends at most two requests, never sleeps and leaves
    the filesystem alone. *)
Lemma effects_get_realtime_token cfg net : effects 2 0 (get_realtime_token cfg net).
Proof.
  unfold get_realtime_token.
  apply effects_try_except_all;
    [|repeat constructor; intros e; apply effects_raise].
  apply effects_then; [lia | case_match; (apply effects_raise || apply effects_ret) | intros _].
  apply effects_then; [lia | apply effects_silent | intros _].
  apply (effects_weaken (1 + 1) (0 + 0)); [|lia|lia].
  apply effects_bind; [lia | apply effects_requests_send | intros test_response].
  apply effects_then; [lia | case_match; (apply effects_raise || apply effects_ret) | intros _].
  apply (effects_weaken (1 + 0) (0 + 0)); [|lia|lia].
  apply effects_bind; [lia | apply effects_requests_send | intros response].
  apply effects_then;
    [lia | repeat case_match; (apply effects_raise || apply effects_ret) | intros _].
  apply effects_try_except; [|intros e; apply effects_raise].
  apply effects_then; [lia | apply effects_response_json | intros token_data].
  apply effects_then; [lia | apply effects_silent | intros has_token].
  apply effects_then; [lia | case_match; (apply effects_raise || apply effects_ret) | intros _].
  apply effects_then; [lia | apply effects_silent | intros token].
  apply effects_then; [lia | apply effects_silent | intros token'].
  apply effects_ret.
Qed.

(** Every call of the token handler answers with the token object or with
    status 500, after at most two requests, and without touching the
    filesystem. *)
Theorem token_contained cfg net w :
  success_or_500 (serve (fst (get_realtime_token cfg net w)))
  ∧ (length (sent (trace (snd (get_realtime_token cfg net w))))
     ≤ length (sent (trace w)) + 2)%nat
  ∧ fs (snd (get_realtime_token cfg net w)) = fs w.
Proof.
  split.
  - unfold get_realtime_token, try_except at 1.
    match goal with
    | |- context [mbind ?f ?m w] => destruct (mbind f m w) as [[v|e] w1]
    end; simpl; [left; eauto|].
    destruct (is_RequestException e); right; eauto.
  - destruct (effects_get_realtime_token cfg net w) as (tr & Htr & Hfs & Hreq & _).
    rewrite Htr, sent_app, length_app. split; [lia | done].
Qed.

(** ** The startup check and what it guarantees *)

Lemma truthy_configured x : truthy x = true ↔ configured x.
Proof.
  unfold truthy, configured. destruct x as [s|].
  - rewrite negb_true_iff, String.eqb_neq. split.
    + intros H. by exists s.
    + intros (s' & [= <-] & H). done.
  - split; [done | intros (s' & H & _); done].
Qed.

(** The startup hook lets the service start exactly when the four settings
    are all present and not empty (an empty value counts as missing);
    otherwise it raises the runtime error.  It has no effect of its own. *)
Theorem startup_event_checks cfg w :
  snd (startup_event cfg w) = w
  ∧ (fst (startup_event cfg w) = Ok ()
     ↔ configured (ASSEMBLYAI_API_KEY cfg) ∧ configured (GOOGLE_API_KEY cfg)
       ∧ configured (AZURE_API_KEY cfg) ∧ configured (AZURE_REGION cfg))
  ∧ (fst (startup_event cfg w) ≠ Ok () →
     fst (startup_event cfg w) = Raise (RuntimeError "Missing API keys in .env file")).
Proof.
  unfold startup_event. rewrite <- !truthy_configured.
  destruct (truthy (ASSEMBLYAI_API_KEY cfg)), (truthy (GOOGLE_API_KEY cfg)),
    (truthy (AZURE_API_KEY cfg)), (truthy (AZURE_REGION cfg)); simpl;
    (split; [done|]); (split; [|done]); split; (done || (intros (?&?&?&?); done)).
Qed.

Section Started.

Variable cfg : config.
Variable net : provider.

Lemma appends_try_except_one {A} (m : M A) catches h :
  appends m → (∀ e, appends (h e)) → appends (try_except m [(catches, h)]).
Proof.
  intros Hm Hh w.
  destruct (try_except_after m catches h w Hh) as [tr Htr].
  destruct (Hm w) as [tr' Htr'].
  exists (tr' ++ tr). by rewrite Htr, Htr', app_assoc.
Qed.

(** A request followed by statements that only append: the request is the
    first effect. *)
Lemma send_first {A} r (f : response → M A) w :
  (∀ a, appends (f a)) →
  ∃ tr, trace (snd ((requests_send net r ≫= f) w)) = trace w ++ EvRequest r :: tr.
Proof.
  intros Hf. unfold mbind, M_bind, requests_send.
  destruct (net (length (sent (trace w))) r) as [resp|msg].
  - destruct (Hf resp (emit (EvRequest r) w)) as [tr Htr].
    exists tr. rewrite Htr. simpl. by rewrite <- app_assoc.
  - by exists [].
Qed.

End Started.

(** Once the startup check has passed, the missing-key failures cannot
    occur: every transcription call that passes the media-type check gets as
    far as sending the upload, and every call of the token handler sends the
    key test. *)
Theorem started_service_reaches_provider cfg w0 :
  fst (startup_event cfg w0) = Ok () →
  (∀ cwd net audio unique_id w,
     is_audio audio = true →
     ∃ rest,
       sent (trace (snd (transcribe_audio cfg cwd net audio unique_id w)))
       = sent (trace w) ++ upload_request (aai_headers cfg) (data audio) :: rest)
  ∧ (∀ net w,
       ∃ rest,
         sent (trace (snd (get_realtime_token cfg net w)))
         = sent (trace w) ++ key_test_request cfg :: rest).
Proof.
  intros Hstart.
  apply (startup_event_checks cfg w0) in Hstart as (Hkey & _).
  split.
  - intros cwd net audio unique_id w Haudio.
    rewrite transcribe_audio_guarded by done.
    edestruct (try_finally_after (A:=retval)) as [tr1 ->];
      [apply appends_remove_if_exists|].
    edestruct (try_except_after (A:=retval)) as [tr2 ->];
      [intros e; apply appends_raise|].
    rewrite job_uploading by (destruct Hkey as (s & -> & _); eauto).
    edestruct (send_first net (A:=retval)) as [tr3 ->].
    { intros response.
      repeat first
        [ apply appends_poll
        | apply appends_requests_send | apply appends_raise_for_status
        | apply appends_response_json | apply appends_lift
        | apply appends_bind; [|intros ?] ]. }
    simpl. rewrite !sent_app. simpl. rewrite <- !app_assoc. simpl. eauto.
  - intros net w.
    apply truthy_configured in Hkey.
    unfold get_realtime_token, try_except at 1.
    match goal with
    | |- context [mbind ?f ?m w] =>
        assert (∃ tr, trace (snd (mbind f m w))
                      = trace w ++ EvRequest (key_test_request cfg) :: tr) as [tr Htr]
    end.
    { rewrite Hkey. simpl negb. cbv iota.
      erewrite bind_ok; last reflexivity.
      destruct (truthy_slice _ 8 Hkey) as [s Hs].
      erewrite bind_ok; last by (unfold lift; rewrite Hs).
      apply send_first. intros test_response.
      apply appends_bind; [case_match; (apply appends_raise || apply appends_ret)|intros _].
      apply appends_bind; [apply appends_requests_send | intros response].
      apply appends_bind;
        [repeat case_match; (apply appends_raise || apply appends_ret) | intros _].
      apply appends_try_except_one; [|intros e; apply appends_raise].
      repeat first
        [ apply appends_response_json | apply appends_lift | apply appends_ret
        | apply appends_raise
        | apply appends_bind; [|intros ?]
        | case_match ]. }
    match goal with
    | |- context [mbind ?f ?m w] => destruct (mbind f m w) as [[v|e] w1]
    end; simpl in *.
    + rewrite Htr, sent_app. simpl. eauto.
    + destruct (is_RequestException e); simpl; rewrite Htr, sent_app; simpl; eauto.
Qed.

Lemma started_service_reaches_provider_witness :
  ∃ rest,
    sent (trace (snd (get_realtime_token Scenario.cfg Cases.unreachable
                        Scenario.empty_world)))
    = key_test_request Scenario.cfg :: rest.
Proof.
  destruct (started_service_reaches_provider Scenario.cfg Scenario.empty_world)
    as [_ H].
  - reflexivity.
  - exact (H Cases.unreachable Scenario.empty_world).
Defined.
